(** * Shallow embedding of questionary's checkbox prompt
    (questionary/prompts/checkbox.py) and of the parts of
    [InquirerControl] (questionary/prompts/common.py) that it calls. *)

From Stdlib Require Import List String ZArith Lia Bool.
Import ListNotations.
Open Scope string_scope.

(** ** Python values returned by a validator *)

(** The validator may return any Python object; the adapter only inspects
    it with [is True], [is False] and [str(...)]. *)
Inductive pyval : Type :=
| PyBool (b : bool)
| PyInt (z : Z)
| PyStr (s : string)
| PyNone.

(** Decimal digits of a non-negative integer, as [str] prints them. *)
Definition digit_char (d : Z) : Ascii.ascii :=
  Ascii.ascii_of_nat (48 + Z.to_nat d).

Fixpoint digits_aux (fuel : nat) (n : Z) (acc : string) : string :=
  match fuel with
  | O => acc
  | S f =>
      let acc' := String (digit_char (n mod 10)%Z) acc in
      if (n <? 10)%Z then acc' else digits_aux f (n / 10)%Z acc'
  end.

Definition digits (n : Z) : string :=
  match n with
  | Zpos p => digits_aux (Pos.size_nat p) n ""
  | _ => "0"
  end.

(** [str(z)] for a Python int. *)
Definition z_str (z : Z) : string :=
  if (z <? 0)%Z then "-" ++ digits (- z)%Z else digits z.

(** [str(v)] *)
Definition py_str (v : pyval) : string :=
  match v with
  | PyBool true => "True"
  | PyBool false => "False"
  | PyInt z => z_str z
  | PyStr s => s
  | PyNone => "None"
  end.

(** [v is True] and [v is False]: identity with the two bool singletons. *)
Definition is_True (v : pyval) : bool :=
  match v with PyBool true => true | _ => false end.

Definition is_False (v : pyval) : bool :=
  match v with PyBool false => true | _ => false end.

(** Modelled from the spec: [INVALID_INPUT] of questionary/constants.py
    (not in the sources), the generic "invalid input" message. *)
Definition INVALID_INPUT : string := "invalid input".

(** prompt_toolkit [FormattedText]: a list of (style class, text) pairs. *)
Definition formatted := list (string * string).

(** Python [==] on choice values, assumed to be a decidable equality. *)
Class PyEq (V : Type) := py_eq_dec : forall x y : V, {x = y} + {x <> y}.

Section Checkbox.

(** The type of choice values. *)
Context {V : Type} `{PyEq V}.

(** ** Choices *)

(** A choice title is either plain text or a list of styled tokens. *)
Inductive title : Type :=
| TStr (s : string)
| TTokens (ts : formatted).

Record choice : Type := mkChoice {
  c_title : title;
  c_value : V;
  c_checked : bool;
  c_disabled : option string
}.

(** An entry of [ic.choices]: a [Choice] or a [Separator]. *)
Inductive entry : Type :=
| Sep (line : string)
| Ch (c : choice).

(** Python truthiness of [c.disabled] (an optional reason string). *)
Definition disabled_truthy (c : choice) : bool :=
  match c_disabled c with
  | None => false
  | Some s => negb (String.eqb s "")
  end.

(** [x in l] on a Python list. *)
Fixpoint mem (x : V) (l : list V) : bool :=
  match l with
  | [] => false
  | y :: l' => if py_eq_dec x y then true else mem x l'
  end.

(** [l.remove(x)]: drops the first occurrence. *)
Fixpoint remove_first (x : V) (l : list V) : list V :=
  match l with
  | [] => []
  | y :: l' => if py_eq_dec x y then l' else y :: remove_first x l'
  end.

(** ** The [InquirerControl] state used by the checkbox *)

Record state : Type := mkState {
  choices : list entry;
  pointed_at : Z;
  selected_options : list V;
  error_message : option formatted;
  submission_attempted : bool;
  is_answered : bool
}.

Definition set_pointed_at (st : state) (p : Z) : state :=
  mkState (choices st) p (selected_options st) (error_message st)
          (submission_attempted st) (is_answered st).

Definition set_selected_options (st : state) (l : list V) : state :=
  mkState (choices st) (pointed_at st) l (error_message st)
          (submission_attempted st) (is_answered st).

Definition set_error_message (st : state) (e : option formatted) : state :=
  mkState (choices st) (pointed_at st) (selected_options st) e
          (submission_attempted st) (is_answered st).

Definition set_submission_attempted (st : state) (b : bool) : state :=
  mkState (choices st) (pointed_at st) (selected_options st)
          (error_message st) b (is_answered st).

Definition set_is_answered (st : state) (b : bool) : state :=
  mkState (choices st) (pointed_at st) (selected_options st)
          (error_message st) (submission_attempted st) b.

(** ** Cursor handling of [InquirerControl] *)

(** Modelled from the spec: [InquirerControl.choice_count]
    (questionary/prompts/common.py, not in the sources). *)
Definition choice_count (st : state) : Z := Z.of_nat (List.length (choices st)).

(** Modelled from the spec: [InquirerControl.select_next] advances the
    cursor one step, wrapping at the end of the list. *)
Definition select_next (st : state) : state :=
  set_pointed_at st ((pointed_at st + 1) mod choice_count st)%Z.

(** Modelled from the spec: [InquirerControl.select_previous] moves the
    cursor one step back, wrapping at the start (Python's [%] is floored,
    as [Z.modulo] is). *)
Definition select_previous (st : state) : state :=
  set_pointed_at st ((pointed_at st - 1) mod choice_count st)%Z.

(** Modelled from the spec: [InquirerControl.get_pointed_at], the entry
    at the cursor ([None] for an index outside the list). *)
Definition get_pointed_at (st : state) : option entry :=
  if (0 <=? pointed_at st)%Z
  then nth_error (choices st) (Z.to_nat (pointed_at st))
  else None.

(** Modelled from the spec: [InquirerControl.is_selection_valid], true
    when the cursor is on a Choice that is neither a Separator nor
    disabled. *)
Definition is_selection_valid (st : state) : bool :=
  match get_pointed_at st with
  | Some (Ch c) => negb (disabled_truthy c)
  | _ => false
  end.

(** The [while not ic.is_selection_valid(): ic.select_next()] loop.  The
    loop is unbounded in Python; [fuel] bounds the number of iterations
    and [None] means it has not finished within them. *)
Fixpoint skip_next (fuel : nat) (st : state) : option state :=
  match fuel with
  | O => None
  | S f => if is_selection_valid st then Some st else skip_next f (select_next st)
  end.

Fixpoint skip_previous (fuel : nat) (st : state) : option state :=
  match fuel with
  | O => None
  | S f =>
      if is_selection_valid st then Some st
      else skip_previous f (select_previous st)
  end.

(** [move_cursor_down] (keys Down and "j"). *)
Definition move_cursor_down (fuel : nat) (st : state) : option state :=
  skip_next fuel (select_next st).

(** [move_cursor_up] (keys Up and "k"). *)
Definition move_cursor_up (fuel : nat) (st : state) : option state :=
  skip_previous fuel (select_previous st).

(** ** Selected values *)

(** The first Choice of the list carrying value [v]. *)
Fixpoint find_choice (v : V) (cs : list entry) : option choice :=
  match cs with
  | [] => None
  | Sep _ :: cs' => find_choice v cs'
  | Ch c :: cs' => if py_eq_dec (c_value c) v then Some c else find_choice v cs'
  end.

(** Modelled from the spec: [InquirerControl.get_selected_values], the
    Choice objects of [selected_options], in the order of
    [selected_options]. *)
Definition ic_get_selected_values (st : state) : list choice :=
  flat_map (fun v => match find_choice v (choices st) with
                     | Some c => [c]
                     | None => []
                     end) (selected_options st).

(** The local [get_selected_values] of [checkbox]. *)
Definition get_selected_values (st : state) : list V :=
  map c_value (ic_get_selected_values st).

(** ** Validation *)

(** [perform_validation], with the user's [validate].  Returns the new
    state and [valid]. *)
Definition perform_validation (validate : list V -> pyval) (st : state)
    (selected_values : list V) : state * bool :=
  let verdict := validate selected_values in
  let valid := is_True verdict in
  let error_text := if is_False verdict then INVALID_INPUT else py_str verdict in
  let error_message := [("class:validation-toolbar", error_text)] in
  (set_error_message st
     (if negb valid && submission_attempted st then Some error_message else None),
   valid).

(** ** Key bindings *)

(** [toggle] (key space).  The cursor invariant keeps the cursor on a
    Choice; elsewhere the model gives [None]. *)
Definition toggle (validate : list V -> pyval) (st : state) : option state :=
  match get_pointed_at st with
  | Some (Ch c) =>
      let pointed_choice := c_value c in
      let sel := selected_options st in
      let st1 := set_selected_options st
                   (if mem pointed_choice sel then remove_first pointed_choice sel
                    else sel ++ [pointed_choice]) in
      Some (fst (perform_validation validate st1 (get_selected_values st1)))
  | _ => None
  end.

(** The comprehension of [invert]. *)
Definition inverted_selection (cs : list entry) (sel : list V) : list V :=
  flat_map (fun e => match e with
                     | Sep _ => []
                     | Ch c => if negb (mem (c_value c) sel) && negb (disabled_truthy c)
                               then [c_value c] else []
                     end) cs.

(** [invert] (key "i"). *)
Definition invert (validate : list V -> pyval) (st : state) : state :=
  let st1 := set_selected_options st
               (inverted_selection (choices st) (selected_options st)) in
  fst (perform_validation validate st1 (get_selected_values st1)).

(** The [for] loop of [all]: the growing [selected_options] and
    [all_selected]. *)
Fixpoint all_loop (cs : list entry) (sel : list V) (all_selected : bool)
    : list V * bool :=
  match cs with
  | [] => (sel, all_selected)
  | Sep _ :: cs' => all_loop cs' sel all_selected
  | Ch c :: cs' =>
      if negb (mem (c_value c) sel) && negb (disabled_truthy c)
      then all_loop cs' (sel ++ [c_value c]) false
      else all_loop cs' sel all_selected
  end.

(** [all] (key "a"). *)
Definition all (validate : list V -> pyval) (st : state) : state :=
  let '(sel, all_selected) := all_loop (choices st) (selected_options st) true in
  let st1 := set_selected_options st (if all_selected then [] else sel) in
  fst (perform_validation validate st1 (get_selected_values st1)).

(** The state of the session after a key. *)
Inductive outcome : Type :=
| Active (st : state)
| Answered (st : state) (result : list V)
| Aborted
| Stuck.

(** [set_answer] (Enter, i.e. ControlM); [Answered] is
    [event.app.exit(result=selected_values)]. *)
Definition set_answer (validate : list V -> pyval) (st : state) : outcome :=
  let selected_values := get_selected_values st in
  let st1 := set_submission_attempted st true in
  let '(st2, ok) := perform_validation validate st1 selected_values in
  if ok then Answered (set_is_answered st2 true) selected_values
  else Active st2.

Inductive key : Type :=
| KControlQ | KControlC | KSpace | KI | KA | KDown | KJ | KUp | KK | KControlM
| KOther (ch : Ascii.ascii).

Definition of_option (o : option state) : outcome :=
  match o with Some st => Active st | None => Stuck end.

(** The key binding table; [fuel] bounds the cursor loops. *)
Definition handle_key (validate : list V -> pyval) (fuel : nat) (st : state)
    (k : key) : outcome :=
  match k with
  | KControlQ | KControlC => Aborted
  | KSpace => of_option (toggle validate st)
  | KI => Active (invert validate st)
  | KA => Active (all validate st)
  | KDown | KJ => of_option (move_cursor_down fuel st)
  | KUp | KK => of_option (move_cursor_up fuel st)
  | KControlM => set_answer validate st
  | KOther _ => Active st
  end.

(** Feeding keys one at a time until the session leaves [Active]. *)
Fixpoint run_keys (validate : list V -> pyval) (fuel : nat) (st : state)
    (ks : list key) : outcome :=
  match ks with
  | [] => Active st
  | k :: ks' =>
      match handle_key validate fuel st k with
      | Active st' => run_keys validate fuel st' ks'
      | o => o
      end
  end.

(** ** Rendering *)

(** The first two tokens of [get_prompt_tokens]. *)
Definition prompt_head (qmark message : string) : formatted :=
  [("class:qmark", qmark); ("class:question", " " ++ message ++ " ")].

(** [get_prompt_tokens]; [None] stands for the [IndexError] of
    [ic.get_selected_values()[0]] on an empty list. *)
Definition get_prompt_tokens (qmark message : string) (st : state)
    : option formatted :=
  let tokens := prompt_head qmark message in
  if is_answered st then
    match List.length (selected_options st) with
    | O => Some (app tokens [("class:answer", "done")])
    | 1 =>
        match ic_get_selected_values st with
        | c :: _ =>
            match c_title c with
            | TTokens ts =>
                Some (app tokens [("class:answer",
                                  String.concat "" (map snd ts))])
            | TStr t => Some (app tokens [("class:answer", "[" ++ t ++ "]")])
            end
        | [] => None
        end
    | nbr_selected =>
        Some (app tokens [("class:answer",
                          "done (" ++ z_str (Z.of_nat nbr_selected) ++ " selections)")])
    end
  else
    Some (app tokens [("class:instruction",
                      "(Use arrow keys to move, <space> to select, <a> to toggle, <i> to invert)")]).

(** ** Vocabulary of the spec *)

(** An enabled, non-separator entry. *)
Definition selectable (e : entry) : bool :=
  match e with
  | Sep _ => false
  | Ch c => negb (disabled_truthy c)
  end.

(** The values of the enabled, non-separator choices, in list order. *)
Definition selectable_values (cs : list entry) : list V :=
  flat_map (fun e => match e with
                     | Ch c => if selectable e then [c_value c] else []
                     | Sep _ => []
                     end) cs.

End Checkbox.

Arguments choice V : clear implicits.
Arguments entry V : clear implicits.
Arguments state V : clear implicits.
Arguments outcome V : clear implicits.

(** ** Concrete instances used by the examples *)

#[export] Instance PyEq_string : PyEq string := string_dec.

Definition plain (s : string) : entry string :=
  Ch (mkChoice (TStr s) s false None).

Definition ex_choices : list (entry string) := [plain "a"; plain "b"; Sep "-----"; plain "c"].

Definition ex_state : state string := mkState ex_choices 0 [] None false false.

(** A validator requiring at least one selection. *)
Definition at_least_one (l : list string) : pyval :=
  match l with [] => PyStr "pick one" | _ => PyBool true end.

(** A choice whose title is a list of styled tokens, selected alone in an
    answered prompt. *)
Definition styled_choice : choice string :=
  mkChoice (TTokens [("class:bold", "foo")]) "a" false None.

Definition styled_state : state string :=
  mkState [Ch styled_choice] 0 ["a"] None true true.

(** The selection ["a"; "b"] with the cursor on "a". *)
Definition ab_state : state string := mkState ex_choices 0 ["a"; "b"] None false false.

(** ** Sanity checks on the example of the spec *)

Example ex_move_twice :
  run_keys at_least_one 10 ex_state [KDown; KDown]
  = Active (set_pointed_at ex_state 3).
Proof. reflexivity. Qed.

Example ex_toggle_invert :
  match run_keys at_least_one 10 ex_state [KSpace; KDown; KDown; KSpace; KI] with
  | Active st => selected_options st = ["b"]
  | _ => False
  end.
Proof. vm_compute. reflexivity. Qed.

Example ex_submit_empty :
  match run_keys at_least_one 10 ex_state [KControlM] with
  | Active st => error_message st = Some [("class:validation-toolbar", "pick one")]
  | _ => False
  end.
Proof. vm_compute. reflexivity. Qed.

Example ex_submit_b :
  match run_keys at_least_one 10 ex_state [KSpace; KDown; KDown; KSpace; KI; KControlM] with
  | Answered _ r => r = ["b"]
  | _ => False
  end.
Proof. vm_compute. reflexivity. Qed.

Example ex_str_12 : py_str (PyInt (-120)) = "-120".
Proof. reflexivity. Qed.

(** ** Properties *)

Section Properties.

Context {V : Type} `{PyEq V}.

Local Open Scope list_scope.

(** *** Lists *)

Lemma mem_In (x : V) (l : list V) : mem x l = true <-> In x l.
Proof.
  induction l as [|y l IH]; simpl.
  - split; [discriminate | tauto].
  - destruct (py_eq_dec x y) as [->|Hne].
    + tauto.
    + rewrite IH. split; [tauto|]. intros [->|Hin]; [congruence|exact Hin].
Qed.

Lemma mem_false_In (x : V) (l : list V) : mem x l = false <-> ~ In x l.
Proof.
  rewrite <- mem_In. destruct (mem x l); split; intro Hm; try congruence.
Qed.

(** *** Cursor *)

Lemma set_pointed_at_same (st : state V) : set_pointed_at st (pointed_at st) = st.
Proof. destruct st; reflexivity. Qed.

Lemma set_pointed_at_twice (st : state V) (p q : Z) :
  set_pointed_at (set_pointed_at st p) q = set_pointed_at st q.
Proof. reflexivity. Qed.

Lemma pointed_at_set (st : state V) (p : Z) : pointed_at (set_pointed_at st p) = p.
Proof. reflexivity. Qed.

Lemma choice_count_set (st : state V) (p : Z) :
  choice_count (set_pointed_at st p) = choice_count st.
Proof. reflexivity. Qed.

Lemma is_selection_valid_range (st : state V) :
  is_selection_valid st = true -> (0 <= pointed_at st < choice_count st)%Z.
Proof.
  unfold is_selection_valid, get_pointed_at, choice_count.
  destruct (Z.leb_spec 0 (pointed_at st)) as [Hle|]; [|discriminate].
  destruct (nth_error (choices st) (Z.to_nat (pointed_at st))) eqn:E;
    [|discriminate].
  intros _. assert (Z.to_nat (pointed_at st) < List.length (choices st))%nat
    by (apply nth_error_Some; congruence).
  lia.
Qed.

(** The entry at index [i] decides [is_selection_valid] there. *)
Lemma is_selection_valid_at (st : state V) (i : nat) (e : entry V) :
  nth_error (choices st) i = Some e ->
  is_selection_valid (set_pointed_at st (Z.of_nat i)) = selectable e.
Proof.
  intros Hi. unfold is_selection_valid, get_pointed_at. simpl.
  rewrite Nat2Z.id, Hi. destruct (0 <=? Z.of_nat i)%Z eqn:E.
  - destruct e; reflexivity.
  - apply Z.leb_gt in E. lia.
Qed.

(** If a valid position lies [j] forward steps ahead, with [j] below the
    fuel, the forward loop stops on a valid position. *)
Lemma skip_next_reaches (fuel : nat) : forall (st : state V) (j : Z),
  (0 <= pointed_at st < choice_count st)%Z ->
  (0 <= j < Z.of_nat fuel)%Z ->
  is_selection_valid
    (set_pointed_at st ((pointed_at st + j) mod choice_count st)) = true ->
  exists st', skip_next fuel st = Some st' /\ is_selection_valid st' = true.
Proof.
  induction fuel as [|f IH]; intros st j Hp Hj Hv; [lia|].
  simpl. destruct (is_selection_valid st) eqn:E; [eauto|].
  assert (j <> 0)%Z.
  { intros ->. rewrite Z.add_0_r, Z.mod_small, set_pointed_at_same in Hv by lia.
    congruence. }
  apply (IH (select_next st) (j - 1)%Z).
  - unfold select_next. rewrite pointed_at_set, choice_count_set.
    apply Z.mod_pos_bound. lia.
  - lia.
  - unfold select_next.
    rewrite pointed_at_set, choice_count_set, set_pointed_at_twice,
      Zplus_mod_idemp_l.
    replace (pointed_at st + 1 + (j - 1))%Z with (pointed_at st + j)%Z by ring.
    exact Hv.
Qed.

(** Same for the backward loop. *)
Lemma skip_previous_reaches (fuel : nat) : forall (st : state V) (j : Z),
  (0 <= pointed_at st < choice_count st)%Z ->
  (0 <= j < Z.of_nat fuel)%Z ->
  is_selection_valid
    (set_pointed_at st ((pointed_at st - j) mod choice_count st)) = true ->
  exists st', skip_previous fuel st = Some st' /\ is_selection_valid st' = true.
Proof.
  induction fuel as [|f IH]; intros st j Hp Hj Hv; [lia|].
  simpl. destruct (is_selection_valid st) eqn:E; [eauto|].
  assert (j <> 0)%Z.
  { intros ->. rewrite Z.sub_0_r, Z.mod_small, set_pointed_at_same in Hv by lia.
    congruence. }
  apply (IH (select_previous st) (j - 1)%Z).
  - unfold select_previous. rewrite pointed_at_set, choice_count_set.
    apply Z.mod_pos_bound. lia.
  - lia.
  - unfold select_previous.
    rewrite pointed_at_set, choice_count_set, set_pointed_at_twice,
      Zminus_mod_idemp_l.
    replace (pointed_at st - 1 - (j - 1))%Z with (pointed_at st - j)%Z by ring.
    exact Hv.
Qed.

(** A selectable entry gives a valid index inside the list. *)
Lemma selectable_index (st : state V) :
  existsb selectable (choices st) = true ->
  exists i : nat, (i < List.length (choices st))%nat /\
    is_selection_valid (set_pointed_at st (Z.of_nat i)) = true.
Proof.
  intros Hex. apply existsb_exists in Hex. destruct Hex as [e [Hin Hs]].
  apply In_nth_error in Hin. destruct Hin as [i Hi].
  exists i. split.
  - apply nth_error_Some. congruence.
  - rewrite (is_selection_valid_at st i e Hi). exact Hs.
Qed.

(** The forward half of C1. *)
Lemma move_cursor_down_lands_on_selectable (fuel : nat) (st : state V) :
  existsb selectable (choices st) = true ->
  (List.length (choices st) <= fuel)%nat ->
  exists st', move_cursor_down fuel st = Some st' /\ is_selection_valid st' = true.
Proof.
  intros Hex Hf. destruct (selectable_index st Hex) as [i [Hi Hv]].
  assert (Hn : choice_count st = Z.of_nat (List.length (choices st))) by reflexivity.
  unfold move_cursor_down.
  set (p1 := ((pointed_at st + 1) mod choice_count st)%Z).
  assert (Hp1 : (0 <= p1 < choice_count st)%Z) by (apply Z.mod_pos_bound; lia).
  apply (skip_next_reaches fuel (select_next st) ((Z.of_nat i - p1) mod choice_count st)).
  - unfold select_next. rewrite pointed_at_set, choice_count_set. exact Hp1.
  - assert (0 <= (Z.of_nat i - p1) mod choice_count st < choice_count st)%Z
      by (apply Z.mod_pos_bound; lia).
    lia.
  - unfold select_next.
    rewrite pointed_at_set, choice_count_set, set_pointed_at_twice,
      Zplus_mod_idemp_r.
    fold p1. replace (p1 + (Z.of_nat i - p1))%Z with (Z.of_nat i) by ring.
    rewrite Z.mod_small by lia. exact Hv.
Qed.

(** The backward half of C1. *)
Lemma move_cursor_up_lands_on_selectable (fuel : nat) (st : state V) :
  existsb selectable (choices st) = true ->
  (List.length (choices st) <= fuel)%nat ->
  exists st', move_cursor_up fuel st = Some st' /\ is_selection_valid st' = true.
Proof.
  intros Hex Hf. destruct (selectable_index st Hex) as [i [Hi Hv]].
  assert (Hn : choice_count st = Z.of_nat (List.length (choices st))) by reflexivity.
  unfold move_cursor_up.
  set (p1 := ((pointed_at st - 1) mod choice_count st)%Z).
  assert (Hp1 : (0 <= p1 < choice_count st)%Z) by (apply Z.mod_pos_bound; lia).
  apply (skip_previous_reaches fuel (select_previous st)
           ((p1 - Z.of_nat i) mod choice_count st)).
  - unfold select_previous. rewrite pointed_at_set, choice_count_set. exact Hp1.
  - assert (0 <= (p1 - Z.of_nat i) mod choice_count st < choice_count st)%Z
      by (apply Z.mod_pos_bound; lia).
    lia.
  - unfold select_previous.
    rewrite pointed_at_set, choice_count_set, set_pointed_at_twice,
      Zminus_mod_idemp_r.
    fold p1. replace (p1 - (p1 - Z.of_nat i))%Z with (Z.of_nat i) by ring.
    rewrite Z.mod_small by lia. exact Hv.
Qed.

(** C1: on a list holding at least one enabled, non-separator Choice,
    both cursor moves finish, from any cursor position, within as many
    loop iterations as the list has entries (so past any run of
    separators and disabled choices, wrapping around as often as needed),
    and leave the cursor on an enabled, non-separator Choice. *)
Theorem move_cursor_lands_on_selectable (fuel : nat) (st : state V) :
  existsb selectable (choices st) = true ->
  (List.length (choices st) <= fuel)%nat ->
  (exists st', move_cursor_down fuel st = Some st' /\ is_selection_valid st' = true) /\
  (exists st', move_cursor_up fuel st = Some st' /\ is_selection_valid st' = true).
Proof.
  intros Hex Hf. split.
  - apply move_cursor_down_lands_on_selectable; assumption.
  - apply move_cursor_up_lands_on_selectable; assumption.
Qed.

(** *** Frame of the cursor moves *)

Lemma skip_next_frame (fuel : nat) : forall (st st' : state V),
  skip_next fuel st = Some st' -> st' = set_pointed_at st (pointed_at st').
Proof.
  induction fuel as [|f IH]; simpl; intros st st' Hs; [discriminate|].
  destruct (is_selection_valid st).
  - injection Hs as <-. symmetry. apply set_pointed_at_same.
  - apply IH in Hs. rewrite Hs at 1. reflexivity.
Qed.

Lemma skip_previous_frame (fuel : nat) : forall (st st' : state V),
  skip_previous fuel st = Some st' -> st' = set_pointed_at st (pointed_at st').
Proof.
  induction fuel as [|f IH]; simpl; intros st st' Hs; [discriminate|].
  destruct (is_selection_valid st).
  - injection Hs as <-. symmetry. apply set_pointed_at_same.
  - apply IH in Hs. rewrite Hs at 1. reflexivity.
Qed.

(** C10: the keys Down, "j", Up and "k" change only the cursor: the
    choices, the selection, the error message and both flags stay as they
    were, and the outcome does not depend on the validator. *)
Theorem cursor_keys_change_only_cursor (validate : list V -> pyval) (fuel : nat)
    (st st' : state V) (k : key) :
  In k [KDown; KJ; KUp; KK] ->
  handle_key validate fuel st k = Active st' ->
  choices st' = choices st /\
  selected_options st' = selected_options st /\
  error_message st' = error_message st /\
  submission_attempted st' = submission_attempted st /\
  is_answered st' = is_answered st /\
  (forall validate' : list V -> pyval, handle_key validate' fuel st k = Active st').
Proof.
  intros Hk Hh.
  assert (Hf : st' = set_pointed_at st (pointed_at st')).
  { simpl in Hk. unfold of_option in Hh.
    destruct Hk as [<-|[<-|[<-|[<-|[]]]]]; simpl in Hh.
    1,2: destruct (move_cursor_down fuel st) as [s|] eqn:E; [|discriminate];
         injection Hh as <-; exact (skip_next_frame _ _ _ E).
    1,2: destruct (move_cursor_up fuel st) as [s|] eqn:E; [|discriminate];
         injection Hh as <-; exact (skip_previous_frame _ _ _ E). }
  rewrite Hf. repeat split; try reflexivity.
  intros validate'. rewrite <- Hf, <- Hh.
  simpl in Hk. destruct Hk as [<-|[<-|[<-|[<-|[]]]]]; reflexivity.
Qed.

(** *** Toggle *)

Lemma selected_options_pv (validate : list V -> pyval) (st : state V) (sv : list V) :
  selected_options (fst (perform_validation validate st sv)) = selected_options st.
Proof. reflexivity. Qed.

Lemma remove_first_app_notin (v : V) (l : list V) :
  ~ In v l -> remove_first v (l ++ [v]) = l.
Proof.
  induction l as [|y l IH]; simpl; intros Hn.
  - destruct (py_eq_dec v v); congruence.
  - destruct (py_eq_dec v y) as [->|Hne]; [tauto|].
    f_equal. apply IH. tauto.
Qed.

Lemma remove_first_NoDup_notin (v : V) (l : list V) :
  NoDup l -> ~ In v (remove_first v l).
Proof.
  induction l as [|y l IH]; simpl; intros Hnd; [tauto|].
  inversion Hnd as [|? ? Hy Hl]; subst.
  destruct (py_eq_dec v y) as [->|Hne]; [exact Hy|].
  simpl. intros [->|Hin]; [congruence|]. exact (IH Hl Hin).
Qed.

(** C3, as the code does it: with the cursor unchanged on a Choice of
    value [v] and a selection without duplicates, two toggles restore the
    selection exactly when [v] was not selected; when [v] was selected,
    they remove it and append it again, so [v] moves to the end. *)
Theorem toggle_twice (validate : list V -> pyval) (st : state V) (c : choice V) :
  get_pointed_at st = Some (Ch c) ->
  NoDup (selected_options st) ->
  exists st1 st2,
    toggle validate st = Some st1 /\ toggle validate st1 = Some st2 /\
    selected_options st2 =
      (if mem (c_value c) (selected_options st)
       then remove_first (c_value c) (selected_options st) ++ [c_value c]
       else selected_options st).
Proof.
  intros Hp Hnd.
  assert (Hp1 : forall x sv, get_pointed_at
            (fst (perform_validation validate (set_selected_options st x) sv))
            = Some (Ch c)) by (intros; exact Hp).
  eexists _, _. split.
  { unfold toggle. rewrite Hp. cbv zeta. reflexivity. }
  split.
  { unfold toggle at 1. rewrite Hp1. cbv zeta. reflexivity. }
  rewrite !selected_options_pv. cbn [selected_options set_selected_options].
  destruct (mem (c_value c) (selected_options st)) eqn:Em.
  - assert (Hn : mem (c_value c) (remove_first (c_value c) (selected_options st)) = false)
      by (apply mem_false_In, remove_first_NoDup_notin, Hnd).
    rewrite Hn. reflexivity.
  - apply mem_false_In in Em.
    assert (Hy : mem (c_value c) (selected_options st ++ [c_value c]) = true)
      by (apply mem_In, in_or_app; right; left; reflexivity).
    rewrite Hy. apply remove_first_app_notin, Em.
Qed.

(** *** Invert *)

Lemma selectable_values_cons_Ch (c : choice V) (cs : list (entry V)) :
  selectable_values (Ch c :: cs)
  = (if negb (disabled_truthy c) then [c_value c] else []) ++ selectable_values cs.
Proof. reflexivity. Qed.

Lemma inverted_selection_cons_Ch (c : choice V) (cs : list (entry V)) (sel : list V) :
  inverted_selection (Ch c :: cs) sel
  = (if negb (mem (c_value c) sel) && negb (disabled_truthy c) then [c_value c] else [])
    ++ inverted_selection cs sel.
Proof. reflexivity. Qed.

Lemma inverted_selection_In (cs : list (entry V)) (sel : list V) (v : V) :
  In v (inverted_selection cs sel) <-> In v (selectable_values cs) /\ ~ In v sel.
Proof.
  induction cs as [|[l|c] cs IH]; [simpl; tauto | exact IH |].
  rewrite inverted_selection_cons_Ch, selectable_values_cons_Ch, !in_app_iff, IH.
  clear IH.
  destruct (disabled_truthy c); simpl; rewrite ?andb_false_r, ?andb_true_r;
    [simpl; tauto|].
  destruct (mem (c_value c) sel) eqn:Em; simpl.
  - pose proof (proj1 (mem_In _ _) Em) as Emi. split.
    + intros [[] | Hr]; tauto.
    + intros [[[Heq|[]]|Hin] Hn]; [subst v; contradiction | tauto].
  - pose proof (proj1 (mem_false_In _ _) Em) as Emi. split.
    + intros [[Heq|[]] | Hr]; [subst v|]; tauto.
    + intros [[[Heq|[]]|Hin] Hn]; [subst v|]; tauto.
Qed.

(** C6: for a selection made only of values of enabled, non-separator
    choices, two inversions give back the same set of values. *)
Theorem invert_twice_same_set (validate : list V -> pyval) (st : state V) :
  (forall v, In v (selected_options st) -> In v (selectable_values (choices st))) ->
  forall v, In v (selected_options (invert validate (invert validate st)))
            <-> In v (selected_options st).
Proof.
  intros Hsub v.
  change (selected_options (invert validate (invert validate st)))
    with (inverted_selection (choices st)
            (inverted_selection (choices st) (selected_options st))).
  rewrite !inverted_selection_In.
  destruct (mem v (selected_options st)) eqn:Em.
  - apply mem_In in Em. split; [tauto|]. intros _. split; [auto|tauto].
  - apply mem_false_In in Em. split; [|tauto].
    intros [Hs Hn]. exfalso. apply Hn. split; assumption.
Qed.

(** *** Select all or none *)

Lemma mem_app_single_ne (x v : V) (l : list V) :
  x <> v -> mem x (l ++ [v]) = mem x l.
Proof.
  intros Hne. induction l as [|y l IH]; simpl.
  - destruct (py_eq_dec x v); [contradiction|reflexivity].
  - destruct (py_eq_dec x y); [reflexivity|exact IH].
Qed.

(** The loop of [all]: the missing selectable values are appended in list
    order, and [all_selected] survives only if none was missing. *)
Lemma all_loop_eq (cs : list (entry V)) : forall (sel : list V) (b : bool),
  NoDup (selectable_values cs) ->
  all_loop cs sel b =
    (sel ++ filter (fun v => negb (mem v sel)) (selectable_values cs),
     b && forallb (fun v => mem v sel) (selectable_values cs)).
Proof.
  induction cs as [|[l|c] cs IH]; intros sel b Hnd.
  - simpl. rewrite app_nil_r, andb_true_r. reflexivity.
  - exact (IH sel b Hnd).
  - rewrite selectable_values_cons_Ch in *. simpl all_loop.
    destruct (disabled_truthy c); simpl in *.
    { rewrite andb_false_r. exact (IH sel b Hnd). }
    inversion Hnd as [|? ? Hv Hnd']; subst.
    destruct (mem (c_value c) sel) eqn:Em; simpl.
    + exact (IH sel b Hnd').
    + rewrite (IH (sel ++ [c_value c]) false Hnd'), <- app_assoc. simpl.
      f_equal; [|rewrite andb_false_r; reflexivity].
      f_equal. f_equal.
      apply filter_ext_in. intros x Hx.
      rewrite mem_app_single_ne; [reflexivity|].
      intros ->. contradiction.
Qed.

(** C2: when the values of the enabled, non-separator choices are
    distinct, "a" empties the selection exactly when every one of them is
    already selected, and otherwise appends the missing ones, in list
    order, after the current selection. *)
Theorem all_toggles_all_or_none (validate : list V -> pyval) (st : state V) :
  NoDup (selectable_values (choices st)) ->
  (selected_options (all validate st) = [] <->
     (forall v, In v (selectable_values (choices st)) -> In v (selected_options st))) /\
  (~ (forall v, In v (selectable_values (choices st)) -> In v (selected_options st)) ->
     selected_options (all validate st) =
       selected_options st ++
       filter (fun v => negb (mem v (selected_options st)))
              (selectable_values (choices st))).
Proof.
  intros Hnd.
  assert (Hall : selected_options (all validate st) =
    if forallb (fun v => mem v (selected_options st)) (selectable_values (choices st))
    then []
    else selected_options st ++
         filter (fun v => negb (mem v (selected_options st)))
                (selectable_values (choices st))).
  { unfold all. rewrite (all_loop_eq _ _ true Hnd). reflexivity. }
  assert (Hfb : forallb (fun v => mem v (selected_options st))
                  (selectable_values (choices st)) = true <->
                (forall v, In v (selectable_values (choices st)) ->
                           In v (selected_options st))).
  { rewrite forallb_forall. split; intros Hf v Hv; apply mem_In; auto. }
  destruct (forallb (fun v => mem v (selected_options st))
              (selectable_values (choices st))) eqn:Ef.
  - split; [|intros Hn; exfalso; apply Hn, Hfb; reflexivity].
    rewrite Hall. split; [intros _; apply Hfb; reflexivity | reflexivity].
  - split; [|intros _; exact Hall].
    rewrite Hall. split.
    + intros He. apply app_eq_nil in He. destruct He as [_ He].
      exfalso. assert (Hno : ~ (forall v, In v (selectable_values (choices st)) ->
                                          In v (selected_options st))).
      { intros Hf. apply Hfb in Hf. congruence. }
      apply Hno. intros v Hv. destruct (mem v (selected_options st)) eqn:Em.
      * apply mem_In, Em.
      * assert (Hin : In v (filter (fun v => negb (mem v (selected_options st)))
                              (selectable_values (choices st))))
          by (apply filter_In; rewrite Em; auto).
        rewrite He in Hin. destruct Hin.
    + intros Hf. apply Hfb in Hf. congruence.
Qed.

(** *** Validation *)

(** A key other than Enter, before any submit attempt, keeps both the
    flag and the error message down. *)
Lemma handle_key_before_submit (validate : list V -> pyval) (fuel : nat)
    (st st' : state V) (k : key) :
  k <> KControlM ->
  submission_attempted st = false -> error_message st = None ->
  handle_key validate fuel st k = Active st' ->
  submission_attempted st' = false /\ error_message st' = None.
Proof.
  intros Hk Hs He Hh.
  destruct k; cbn [handle_key] in Hh; try discriminate.
  - unfold of_option, toggle in Hh.
    destruct (get_pointed_at st) as [[l|c]|]; try discriminate.
    injection Hh as <-. cbv zeta.
    split; [exact Hs|].
    unfold perform_validation; simpl; rewrite Hs, andb_false_r; reflexivity.
  - injection Hh as <-. unfold invert. cbv zeta.
    split; [exact Hs|].
    unfold perform_validation; simpl; rewrite Hs, andb_false_r; reflexivity.
  - injection Hh as <-. unfold all. destruct (all_loop _ _ _). cbv zeta.
    split; [exact Hs|].
    unfold perform_validation; simpl; rewrite Hs, andb_false_r; reflexivity.
  - unfold of_option in Hh. destruct (move_cursor_down fuel st) eqn:E; [|discriminate].
    injection Hh as <-. rewrite (skip_next_frame _ _ _ E). split; assumption.
  - unfold of_option in Hh. destruct (move_cursor_down fuel st) eqn:E; [|discriminate].
    injection Hh as <-. rewrite (skip_next_frame _ _ _ E). split; assumption.
  - unfold of_option in Hh. destruct (move_cursor_up fuel st) eqn:E; [|discriminate].
    injection Hh as <-. rewrite (skip_previous_frame _ _ _ E). split; assumption.
  - unfold of_option in Hh. destruct (move_cursor_up fuel st) eqn:E; [|discriminate].
    injection Hh as <-. rewrite (skip_previous_frame _ _ _ E). split; assumption.
  - contradiction.
  - injection Hh as <-. split; assumption.
Qed.

(** C4, as the code does it: [perform_validation] stores the failure text
    only when [submission_attempted] is set, and otherwise sets the error
    message to nothing; so any run of keys without Enter, from a state
    with no submit attempt and no error, keeps both down, whatever the
    validator says. *)
Theorem error_stored_only_after_submit (validate : list V -> pyval) (fuel : nat)
    (st st' : state V) (ks : list key) :
  submission_attempted st = false -> error_message st = None ->
  ~ In KControlM ks ->
  run_keys validate fuel st ks = Active st' ->
  (forall (st0 : state V) (sv : list V),
     error_message (fst (perform_validation validate st0 sv)) =
       (if is_True (validate sv) || negb (submission_attempted st0) then None
        else Some [("class:validation-toolbar",
                    if is_False (validate sv) then INVALID_INPUT
                    else py_str (validate sv))])) /\
  error_message st' = None /\ submission_attempted st' = false.
Proof.
  intros Hs He Hk Hr. split.
  { intros st0 sv. unfold perform_validation. simpl.
    destruct (is_True (validate sv)), (submission_attempted st0); reflexivity. }
  revert st Hs He Hr. induction ks as [|k ks IH]; intros st Hs He Hr; simpl in Hr.
  - injection Hr as <-. split; assumption.
  - destruct (handle_key validate fuel st k) as [s| | |] eqn:Eh; try discriminate.
    destruct (handle_key_before_submit validate fuel st s k) as [Hs' He'];
      try assumption.
    + intros ->. apply Hk. left. reflexivity.
    + apply (IH (fun Hin => Hk (or_intror Hin)) s Hs' He' Hr).
Qed.

(** C8: the verdicts [True], [False] and a string. *)
Theorem validator_verdicts (validate : list V -> pyval) (st : state V) (sv : list V) :
  (validate sv = PyBool true ->
     perform_validation validate st sv = (set_error_message st None, true)) /\
  (validate sv = PyBool false ->
     perform_validation validate st sv =
       (set_error_message st
          (if submission_attempted st
           then Some [("class:validation-toolbar", INVALID_INPUT)] else None),
        false)) /\
  (forall s, validate sv = PyStr s ->
     perform_validation validate st sv =
       (set_error_message st
          (if submission_attempted st
           then Some [("class:validation-toolbar", s)] else None),
        false)).
Proof.
  unfold perform_validation.
  split; [|split]; [intros E | intros E | intros s E]; rewrite E; simpl;
    destruct (submission_attempted st); reflexivity.
Qed.

(** C9: only the literal [True] passes; any other verdict fails, and a
    verdict other than [False] is reported as [str(verdict)] (the int 1
    fails, reported as "1"). *)
Theorem verdict_identity_with_True (validate : list V -> pyval) (st : state V)
    (sv : list V) :
  (snd (perform_validation validate st sv) = true <-> validate sv = PyBool true) /\
  (validate sv <> PyBool true -> validate sv <> PyBool false ->
   submission_attempted st = true ->
   error_message (fst (perform_validation validate st sv)) =
     Some [("class:validation-toolbar", py_str (validate sv))]) /\
  snd (perform_validation (fun _ => PyInt 1) st sv) = false /\
  error_message (fst (perform_validation (fun _ => PyInt 1)
                        (set_submission_attempted st true) sv)) =
    Some [("class:validation-toolbar", "1"%string)].
Proof.
  split; [|split; [|split; reflexivity]].
  - unfold perform_validation. simpl.
    destruct (validate sv) as [[|]| | |]; simpl; split; congruence.
  - intros Ht Hf Hs. unfold perform_validation. simpl. rewrite Hs.
    destruct (validate sv) as [[|]| | |]; simpl; congruence.
Qed.

(** *** Submit *)

Lemma find_choice_value (v : V) (cs : list (entry V)) (c : choice V) :
  find_choice v cs = Some c -> c_value c = v.
Proof.
  induction cs as [|[l|c'] cs IH]; simpl; [discriminate| exact IH |].
  destruct (py_eq_dec (c_value c') v) as [E|]; [|exact IH].
  intros Hc. injection Hc as <-. exact E.
Qed.

(** When every selected value names a Choice, the values handed to the
    validator are [selected_options] itself. *)
Lemma get_selected_values_eq (st : state V) :
  (forall v, In v (selected_options st) -> find_choice v (choices st) <> None) ->
  get_selected_values st = selected_options st.
Proof.
  unfold get_selected_values, ic_get_selected_values.
  induction (selected_options st) as [|v l IH]; intros Hall; [reflexivity|].
  simpl. destruct (find_choice v (choices st)) as [c|] eqn:E.
  - simpl. rewrite (find_choice_value _ _ _ E), IH; [reflexivity|].
    intros w Hw. apply Hall. right. exact Hw.
  - exfalso. apply (Hall v); [left; reflexivity | exact E].
Qed.

(** C5: Enter sets [submission_attempted]; an accepting validator answers
    the prompt with the current selection; a failing one keeps the
    session active, with the failure recorded as the error message. *)
Theorem set_answer_outcome (validate : list V -> pyval) (st : state V) :
  (forall v, In v (selected_options st) -> find_choice v (choices st) <> None) ->
  match set_answer validate st with
  | Answered st' r =>
      validate (selected_options st) = PyBool true /\
      r = selected_options st /\ selected_options st' = r /\
      is_answered st' = true /\ submission_attempted st' = true
  | Active st' =>
      validate (selected_options st) <> PyBool true /\
      is_answered st' = is_answered st /\ submission_attempted st' = true /\
      selected_options st' = selected_options st /\
      error_message st' =
        Some [("class:validation-toolbar",
               if is_False (validate (selected_options st)) then INVALID_INPUT
               else py_str (validate (selected_options st)))]
  | _ => False
  end.
Proof.
  intros Hall. unfold set_answer. rewrite (get_selected_values_eq st Hall).
  unfold perform_validation. simpl.
  destruct (validate (selected_options st)) as [[|]| | |]; simpl;
    repeat split; congruence.
Qed.

(** *** Rendering *)

(** C7, as the code does it: after an answer the summary is "done" for
    no selection, "done (N selections)" for two or more, and for a single
    selection the title of its Choice.  Only the plain-text branch wraps
    the title in brackets; the branch for a list of styled tokens shows
    the concatenated token texts without them. *)
Theorem answered_summary (qmark message : string) (st : state V) :
  is_answered st = true ->
  (selected_options st = [] ->
     get_prompt_tokens qmark message st =
       Some (prompt_head qmark message ++ [("class:answer", "done"%string)])) /\
  (forall (v : V) (c : choice V),
     selected_options st = [v] -> find_choice v (choices st) = Some c ->
     (forall t, c_title c = TStr t ->
        get_prompt_tokens qmark message st =
          Some (prompt_head qmark message ++
                [("class:answer", String.append "[" (String.append t "]"))])) /\
     (forall ts, c_title c = TTokens ts ->
        get_prompt_tokens qmark message st =
          Some (prompt_head qmark message ++
                [("class:answer", String.concat "" (map snd ts))]))) /\
  ((2 <= List.length (selected_options st))%nat ->
     get_prompt_tokens qmark message st =
       Some (prompt_head qmark message ++
             [("class:answer",
               String.append "done ("
                 (String.append (z_str (Z.of_nat (List.length (selected_options st))))
                    " selections)"))])).
Proof.
  intros Ha. unfold get_prompt_tokens. rewrite Ha.
  split; [|split].
  - intros Hs. rewrite Hs. reflexivity.
  - intros v c Hs Hf. unfold ic_get_selected_values. rewrite Hs. simpl.
    rewrite Hf. simpl.
    split; intros x Ht; rewrite Ht; reflexivity.
  - intros Hl. destruct (List.length (selected_options st)) as [|[|n]];
      [lia | lia | reflexivity].
Qed.

End Properties.

(** ** Further properties of the key handlers *)

Section Extras.

Context {V : Type} `{PyEq V}.

Local Open Scope list_scope.

(** *** Helpers *)

Lemma is_selection_valid_ext (st st1 : state V) :
  choices st1 = choices st -> pointed_at st1 = pointed_at st ->
  is_selection_valid st1 = is_selection_valid st.
Proof.
  intros Hc Hp. unfold is_selection_valid, get_pointed_at. rewrite Hc, Hp.
  reflexivity.
Qed.

Lemma skip_next_valid (fuel : nat) : forall (st st' : state V),
  skip_next fuel st = Some st' -> is_selection_valid st' = true.
Proof.
  induction fuel as [|f IH]; simpl; intros st st' Hs; [discriminate|].
  destruct (is_selection_valid st) eqn:E.
  - injection Hs as <-. exact E.
  - exact (IH _ _ Hs).
Qed.

Lemma skip_previous_valid (fuel : nat) : forall (st st' : state V),
  skip_previous fuel st = Some st' -> is_selection_valid st' = true.
Proof.
  induction fuel as [|f IH]; simpl; intros st st' Hs; [discriminate|].
  destruct (is_selection_valid st) eqn:E.
  - injection Hs as <-. exact E.
  - exact (IH _ _ Hs).
Qed.

Lemma inverted_selection_filter (cs : list (entry V)) (sel : list V) :
  inverted_selection cs sel =
    filter (fun v => negb (mem v sel)) (selectable_values cs).
Proof.
  induction cs as [|[l|c] cs IH]; [reflexivity | exact IH |].
  rewrite inverted_selection_cons_Ch, selectable_values_cons_Ch, IH.
  destruct (disabled_truthy c); simpl; rewrite ?andb_false_r, ?andb_true_r;
    [reflexivity|].
  destruct (mem (c_value c) sel); reflexivity.
Qed.

Lemma remove_first_In (v w : V) (l : list V) :
  In w (remove_first v l) -> In w l.
Proof.
  induction l as [|y l IH]; simpl; [tauto|].
  destruct (py_eq_dec v y); simpl; tauto.
Qed.

Lemma remove_first_NoDup (v : V) (l : list V) :
  NoDup l -> NoDup (remove_first v l).
Proof.
  induction l as [|y l IH]; simpl; intros Hnd; [exact Hnd|].
  inversion Hnd as [|? ? Hy Hl]; subst.
  destruct (py_eq_dec v y); [exact Hl|].
  constructor; [|exact (IH Hl)].
  intros Hin. apply Hy. exact (remove_first_In v y l Hin).
Qed.

Lemma NoDup_snoc (v : V) (l : list V) :
  NoDup l -> ~ In v l -> NoDup (l ++ [v]).
Proof.
  intros Hnd Hn. apply NoDup_app; [exact Hnd | repeat constructor; simpl; tauto |].
  intros a Ha [<-|[]]. contradiction.
Qed.

(** The Choice under a valid cursor is one of the selectable values. *)
Lemma pointed_selectable (st : state V) (c : choice V) :
  get_pointed_at st = Some (Ch c) -> disabled_truthy c = false ->
  In (c_value c) (selectable_values (choices st)).
Proof.
  unfold get_pointed_at. destruct (0 <=? pointed_at st)%Z; [|discriminate].
  intros Hn Hd. apply nth_error_In in Hn.
  induction (choices st) as [|e cs IH]; [destruct Hn|].
  destruct Hn as [->|Hn].
  - rewrite selectable_values_cons_Ch, Hd. left. reflexivity.
  - change (In (c_value c) ((match e with
                             | Ch c0 => if selectable e then [c_value c0] else []
                             | Sep _ => []
                             end) ++ selectable_values cs)).
    apply in_or_app. right. exact (IH Hn).
Qed.

(** The selection invariant: a valid cursor, a selection drawn from the
    selectable values, without duplicates. *)
Lemma handle_key_invariant (validate : list V -> pyval) (fuel : nat)
    (st st' : state V) (k : key) :
  NoDup (selectable_values (choices st)) ->
  is_selection_valid st = true ->
  (forall v, In v (selected_options st) -> In v (selectable_values (choices st))) ->
  NoDup (selected_options st) ->
  handle_key validate fuel st k = Active st' ->
  choices st' = choices st /\ is_selection_valid st' = true /\
  (forall v, In v (selected_options st') -> In v (selectable_values (choices st))) /\
  NoDup (selected_options st').
Proof.
  intros Hsv Hv Hsub Hnd Hh.
  destruct k; cbn [handle_key] in Hh; try discriminate.
  - (* space *)
    unfold of_option, toggle in Hh.
    destruct (get_pointed_at st) as [[l|c]|] eqn:Ep; try discriminate.
    injection Hh as <-. cbv zeta.
    assert (Hd : disabled_truthy c = false).
    { unfold is_selection_valid in Hv. rewrite Ep in Hv.
      destruct (disabled_truthy c); [discriminate | reflexivity]. }
    split; [reflexivity|]. split; [exact Hv|].
    cbn [fst perform_validation selected_options set_selected_options set_error_message].
    destruct (mem (c_value c) (selected_options st)) eqn:Em.
    + split; [|apply remove_first_NoDup, Hnd].
      intros v Hin. apply Hsub. exact (remove_first_In _ _ _ Hin).
    + apply mem_false_In in Em. split; [|apply NoDup_snoc; assumption].
      intros v Hin. apply in_app_or in Hin. destruct Hin as [Hin|[<-|[]]].
      * exact (Hsub v Hin).
      * exact (pointed_selectable st c Ep Hd).
  - (* i *)
    injection Hh as <-. unfold invert. cbv zeta.
    split; [reflexivity|]. split; [exact Hv|].
    cbn [fst perform_validation selected_options set_selected_options set_error_message].
    rewrite inverted_selection_filter. split.
    + intros v Hin. apply filter_In in Hin. tauto.
    + apply NoDup_filter, Hsv.
  - (* a *)
    injection Hh as <-. unfold all. rewrite (all_loop_eq _ _ true Hsv).
    split; [reflexivity|]. split; [exact Hv|].
    cbn [fst perform_validation selected_options set_selected_options set_error_message].
    destruct (true && _); [split; [intros v []| constructor]|].
    split.
    + intros v Hin. apply in_app_or in Hin. destruct Hin as [Hin|Hin].
      * exact (Hsub v Hin).
      * apply filter_In in Hin. tauto.
    + apply NoDup_app; [exact Hnd | apply NoDup_filter, Hsv |].
      intros a Ha Hf. apply filter_In in Hf. destruct Hf as [_ Hf].
      apply mem_In in Ha. rewrite Ha in Hf. discriminate.
  - (* down *)
    unfold of_option in Hh. destruct (move_cursor_down fuel st) eqn:E; [|discriminate].
    injection Hh as <-. pose proof (skip_next_valid _ _ _ E) as Hv'.
    pose proof (skip_next_frame _ _ _ E) as Hf.
    split; [rewrite Hf; reflexivity|]. split; [exact Hv'|].
    rewrite Hf. split; assumption.
  - (* j *)
    unfold of_option in Hh. destruct (move_cursor_down fuel st) eqn:E; [|discriminate].
    injection Hh as <-. pose proof (skip_next_valid _ _ _ E) as Hv'.
    pose proof (skip_next_frame _ _ _ E) as Hf.
    split; [rewrite Hf; reflexivity|]. split; [exact Hv'|].
    rewrite Hf. split; assumption.
  - (* up *)
    unfold of_option in Hh. destruct (move_cursor_up fuel st) eqn:E; [|discriminate].
    injection Hh as <-. pose proof (skip_previous_valid _ _ _ E) as Hv'.
    pose proof (skip_previous_frame _ _ _ E) as Hf.
    split; [rewrite Hf; reflexivity|]. split; [exact Hv'|].
    rewrite Hf. split; assumption.
  - (* k *)
    unfold of_option in Hh. destruct (move_cursor_up fuel st) eqn:E; [|discriminate].
    injection Hh as <-. pose proof (skip_previous_valid _ _ _ E) as Hv'.
    pose proof (skip_previous_frame _ _ _ E) as Hf.
    split; [rewrite Hf; reflexivity|]. split; [exact Hv'|].
    rewrite Hf. split; assumption.
  - (* enter *)
    unfold set_answer in Hh.
    destruct (perform_validation validate _ _) as [st2 ok] eqn:Epv.
    destruct ok; [discriminate|]. injection Hh as <-.
    assert (Hst2 : st2 = fst (perform_validation validate
                              (set_submission_attempted st true) (get_selected_values st)))
      by (rewrite Epv; reflexivity).
    rewrite Hst2. split; [reflexivity|]. split; [exact Hv|]. split; assumption.
  - (* other keys *)
    injection Hh as <-. repeat split; assumption.
Qed.

(** X1: with distinct values for the enabled Choices, from a state whose
    cursor is on an enabled Choice and whose selection holds distinct
    values of enabled Choices, every run of keys that keeps the prompt
    active keeps all of this, and leaves the choice list unchanged. *)
Theorem run_keys_invariant (validate : list V -> pyval) (fuel : nat)
    (ks : list key) : forall (st st' : state V),
  NoDup (selectable_values (choices st)) ->
  is_selection_valid st = true ->
  (forall v, In v (selected_options st) -> In v (selectable_values (choices st))) ->
  NoDup (selected_options st) ->
  run_keys validate fuel st ks = Active st' ->
  choices st' = choices st /\ is_selection_valid st' = true /\
  (forall v, In v (selected_options st') -> In v (selectable_values (choices st'))) /\
  NoDup (selected_options st').
Proof.
  induction ks as [|k ks IH]; intros st st' Hsv Hv Hsub Hnd Hr; simpl in Hr.
  - injection Hr as <-. repeat split; assumption.
  - destruct (handle_key validate fuel st k) as [s| | |] eqn:Eh; try discriminate.
    destruct (handle_key_invariant validate fuel st s k Hsv Hv Hsub Hnd Eh)
      as (Hc & Hv' & Hsub' & Hnd').
    rewrite <- Hc in Hsv, Hsub'.
    destruct (IH s st' Hsv Hv' Hsub' Hnd' Hr) as (Hc2 & ?).
    split; [congruence|]. assumption.
Qed.

(** *** Nearest selectable entry *)

(** The forward loop stops at the first valid position at or after the
    cursor: [k] steps ahead, with every position before it invalid. *)
Lemma skip_next_char (fuel : nat) : forall (st st' : state V),
  (0 <= pointed_at st < choice_count st)%Z ->
  skip_next fuel st = Some st' ->
  exists k, (0 <= k < Z.of_nat fuel)%Z /\
    st' = set_pointed_at st ((pointed_at st + k) mod choice_count st) /\
    is_selection_valid st' = true /\
    (forall j, (0 <= j < k)%Z ->
       is_selection_valid
         (set_pointed_at st ((pointed_at st + j) mod choice_count st)) = false).
Proof.
  induction fuel as [|f IH]; intros st st' Hp Hs; simpl in Hs; [discriminate|].
  destruct (is_selection_valid st) eqn:E.
  - injection Hs as <-. exists 0%Z. split; [lia|].
    rewrite Z.add_0_r, Z.mod_small, set_pointed_at_same by lia.
    split; [reflexivity|]. split; [exact E|]. intros j Hj. lia.
  - assert (Hp1 : (0 <= pointed_at (select_next st) < choice_count (select_next st))%Z).
    { unfold select_next. rewrite pointed_at_set, choice_count_set.
      apply Z.mod_pos_bound. lia. }
    destruct (IH _ _ Hp1 Hs) as (k & Hk & Hst & Hv & Hmin).
    unfold select_next in Hst, Hmin.
    rewrite pointed_at_set, choice_count_set, set_pointed_at_twice,
      Zplus_mod_idemp_l in Hst.
    exists (k + 1)%Z. split; [lia|].
    split; [rewrite Hst; f_equal; f_equal; ring|]. split; [exact Hv|].
    intros j Hj. destruct (Z.eq_dec j 0) as [->|Hj0].
    + rewrite Z.add_0_r, Z.mod_small, set_pointed_at_same by lia. exact E.
    + specialize (Hmin (j - 1)%Z ltac:(lia)).
      rewrite pointed_at_set, choice_count_set, set_pointed_at_twice,
        Zplus_mod_idemp_l in Hmin.
      replace (pointed_at st + 1 + (j - 1))%Z with (pointed_at st + j)%Z in Hmin
        by ring.
      exact Hmin.
Qed.

Lemma skip_previous_char (fuel : nat) : forall (st st' : state V),
  (0 <= pointed_at st < choice_count st)%Z ->
  skip_previous fuel st = Some st' ->
  exists k, (0 <= k < Z.of_nat fuel)%Z /\
    st' = set_pointed_at st ((pointed_at st - k) mod choice_count st) /\
    is_selection_valid st' = true /\
    (forall j, (0 <= j < k)%Z ->
       is_selection_valid
         (set_pointed_at st ((pointed_at st - j) mod choice_count st)) = false).
Proof.
  induction fuel as [|f IH]; intros st st' Hp Hs; simpl in Hs; [discriminate|].
  destruct (is_selection_valid st) eqn:E.
  - injection Hs as <-. exists 0%Z. split; [lia|].
    rewrite Z.sub_0_r, Z.mod_small, set_pointed_at_same by lia.
    split; [reflexivity|]. split; [exact E|]. intros j Hj. lia.
  - assert (Hp1 : (0 <= pointed_at (select_previous st)
                     < choice_count (select_previous st))%Z).
    { unfold select_previous. rewrite pointed_at_set, choice_count_set.
      apply Z.mod_pos_bound. lia. }
    destruct (IH _ _ Hp1 Hs) as (k & Hk & Hst & Hv & Hmin).
    unfold select_previous in Hst, Hmin.
    rewrite pointed_at_set, choice_count_set, set_pointed_at_twice,
      Zminus_mod_idemp_l in Hst.
    exists (k + 1)%Z. split; [lia|].
    split; [rewrite Hst; f_equal; f_equal; ring|]. split; [exact Hv|].
    intros j Hj. destruct (Z.eq_dec j 0) as [->|Hj0].
    + rewrite Z.sub_0_r, Z.mod_small, set_pointed_at_same by lia. exact E.
    + specialize (Hmin (j - 1)%Z ltac:(lia)).
      rewrite pointed_at_set, choice_count_set, set_pointed_at_twice,
        Zminus_mod_idemp_l in Hmin.
      replace (pointed_at st - 1 - (j - 1))%Z with (pointed_at st - j)%Z in Hmin
        by ring.
      exact Hmin.
Qed.

Lemma valid_existsb_selectable (st : state V) :
  is_selection_valid st = true -> existsb selectable (choices st) = true.
Proof.
  unfold is_selection_valid, get_pointed_at.
  destruct (0 <=? pointed_at st)%Z; [|discriminate].
  destruct (nth_error (choices st) (Z.to_nat (pointed_at st))) as [e|] eqn:En;
    [|discriminate].
  intros Hv. apply existsb_exists. exists e. split.
  - exact (nth_error_In _ _ En).
  - destruct e; [discriminate | exact Hv].
Qed.

(** [move_cursor_down] lands [d] steps ahead, [1 <= d <= n], on the first
    valid position: every position it passes over is invalid. *)
Lemma move_cursor_down_nearest_l (fuel : nat) (st st' : state V) :
  move_cursor_down fuel st = Some st' ->
  exists d, (1 <= d <= choice_count st)%Z /\
    st' = set_pointed_at st ((pointed_at st + d) mod choice_count st) /\
    is_selection_valid st' = true /\
    (forall j, (1 <= j < d)%Z ->
       is_selection_valid
         (set_pointed_at st ((pointed_at st + j) mod choice_count st)) = false).
Proof.
  unfold move_cursor_down. intros E.
  pose proof (skip_next_valid _ _ _ E) as Hv.
  pose proof (skip_next_frame _ _ _ E) as Hf.
  assert (Hn : (0 < choice_count st)%Z).
  { assert (Hc : choice_count st' = choice_count st) by (rewrite Hf; reflexivity).
    apply is_selection_valid_range in Hv. lia. }
  assert (Hp1 : (0 <= pointed_at (select_next st) < choice_count (select_next st))%Z).
  { unfold select_next. rewrite pointed_at_set, choice_count_set.
    apply Z.mod_pos_bound. lia. }
  destruct (skip_next_char _ _ _ Hp1 E) as (k & Hk & Hst & _ & Hmin).
  unfold select_next in Hst, Hmin.
  rewrite pointed_at_set, choice_count_set, set_pointed_at_twice,
    Zplus_mod_idemp_l in Hst.
  assert (Hkn : (k < choice_count st)%Z).
  { destruct (Z_lt_le_dec k (choice_count st)) as [|Hge]; [assumption|].
    exfalso. specialize (Hmin (k - choice_count st)%Z ltac:(lia)).
    rewrite pointed_at_set, choice_count_set, set_pointed_at_twice,
      Zplus_mod_idemp_l in Hmin.
    replace (pointed_at st + 1 + (k - choice_count st))%Z
      with (pointed_at st + 1 + k + (-1) * choice_count st)%Z in Hmin by ring.
    rewrite Z.mod_add in Hmin by lia. rewrite <- Hst in Hmin. congruence. }
  exists (k + 1)%Z. split; [lia|].
  split; [rewrite Hst; f_equal; f_equal; ring|]. split; [exact Hv|].
  intros j Hj. specialize (Hmin (j - 1)%Z ltac:(lia)).
  rewrite pointed_at_set, choice_count_set, set_pointed_at_twice,
    Zplus_mod_idemp_l in Hmin.
  replace (pointed_at st + 1 + (j - 1))%Z with (pointed_at st + j)%Z in Hmin by ring.
  exact Hmin.
Qed.

Lemma move_cursor_up_nearest_l (fuel : nat) (st st' : state V) :
  move_cursor_up fuel st = Some st' ->
  exists d, (1 <= d <= choice_count st)%Z /\
    st' = set_pointed_at st ((pointed_at st - d) mod choice_count st) /\
    is_selection_valid st' = true /\
    (forall j, (1 <= j < d)%Z ->
       is_selection_valid
         (set_pointed_at st ((pointed_at st - j) mod choice_count st)) = false).
Proof.
  unfold move_cursor_up. intros E.
  pose proof (skip_previous_valid _ _ _ E) as Hv.
  pose proof (skip_previous_frame _ _ _ E) as Hf.
  assert (Hn : (0 < choice_count st)%Z).
  { assert (Hc : choice_count st' = choice_count st) by (rewrite Hf; reflexivity).
    apply is_selection_valid_range in Hv. lia. }
  assert (Hp1 : (0 <= pointed_at (select_previous st)
                   < choice_count (select_previous st))%Z).
  { unfold select_previous. rewrite pointed_at_set, choice_count_set.
    apply Z.mod_pos_bound. lia. }
  destruct (skip_previous_char _ _ _ Hp1 E) as (k & Hk & Hst & _ & Hmin).
  unfold select_previous in Hst, Hmin.
  rewrite pointed_at_set, choice_count_set, set_pointed_at_twice,
    Zminus_mod_idemp_l in Hst.
  assert (Hkn : (k < choice_count st)%Z).
  { destruct (Z_lt_le_dec k (choice_count st)) as [|Hge]; [assumption|].
    exfalso. specialize (Hmin (k - choice_count st)%Z ltac:(lia)).
    rewrite pointed_at_set, choice_count_set, set_pointed_at_twice,
      Zminus_mod_idemp_l in Hmin.
    replace (pointed_at st - 1 - (k - choice_count st))%Z
      with (pointed_at st - 1 - k + 1 * choice_count st)%Z in Hmin by ring.
    rewrite Z.mod_add in Hmin by lia. rewrite <- Hst in Hmin. congruence. }
  exists (k + 1)%Z. split; [lia|].
  split; [rewrite Hst; f_equal; f_equal; ring|]. split; [exact Hv|].
  intros j Hj. specialize (Hmin (j - 1)%Z ltac:(lia)).
  rewrite pointed_at_set, choice_count_set, set_pointed_at_twice,
    Zminus_mod_idemp_l in Hmin.
  replace (pointed_at st - 1 - (j - 1))%Z with (pointed_at st - j)%Z in Hmin by ring.
  exact Hmin.
Qed.

(** X2: a cursor move stops on the nearest enabled Choice in its
    direction: it moves [d] entries (at most the length of the list,
    wrapping around) and every entry it passes over is a Separator or a
    disabled Choice. *)
Theorem cursor_moves_stop_at_nearest (fuel : nat) (st : state V) :
  (forall st', move_cursor_down fuel st = Some st' ->
   exists d, (1 <= d <= choice_count st)%Z /\
     st' = set_pointed_at st ((pointed_at st + d) mod choice_count st) /\
     is_selection_valid st' = true /\
     (forall j, (1 <= j < d)%Z ->
        is_selection_valid
          (set_pointed_at st ((pointed_at st + j) mod choice_count st)) = false)) /\
  (forall st', move_cursor_up fuel st = Some st' ->
   exists d, (1 <= d <= choice_count st)%Z /\
     st' = set_pointed_at st ((pointed_at st - d) mod choice_count st) /\
     is_selection_valid st' = true /\
     (forall j, (1 <= j < d)%Z ->
        is_selection_valid
          (set_pointed_at st ((pointed_at st - j) mod choice_count st)) = false)).
Proof.
  split; intros st'; [apply move_cursor_down_nearest_l | apply move_cursor_up_nearest_l].
Qed.

(** X3: from a cursor on an enabled Choice, with at least as many loop
    iterations allowed as there are entries, moving down and then up (or
    up and then down) gives back the very same state. *)
Theorem cursor_move_round_trip (fuel : nat) (st : state V) :
  is_selection_valid st = true ->
  (List.length (choices st) <= fuel)%nat ->
  (exists st', move_cursor_down fuel st = Some st' /\ move_cursor_up fuel st' = Some st) /\
  (exists st', move_cursor_up fuel st = Some st' /\ move_cursor_down fuel st' = Some st).
Proof.
  intros Hv Hf. pose proof (is_selection_valid_range st Hv) as Hp.
  split.
  - destruct (move_cursor_down_lands_on_selectable fuel st
                (valid_existsb_selectable st Hv) Hf) as [st' [Ed Hv']].
    exists st'. split; [exact Ed|].
    destruct (move_cursor_down_nearest_l _ _ _ Ed) as (d & Hd & Hst' & _ & Hmin).
    assert (Hf' : (List.length (choices st') <= fuel)%nat) by (rewrite Hst'; exact Hf).
    destruct (move_cursor_up_lands_on_selectable fuel st'
                (valid_existsb_selectable st' Hv') Hf') as [st'' [Eu Hv'']].
    destruct (move_cursor_up_nearest_l _ _ _ Eu) as (e & He & Hst'' & _ & Hmin').
    rewrite Eu. f_equal. subst st'.
    rewrite pointed_at_set, choice_count_set, set_pointed_at_twice,
      Zminus_mod_idemp_l in Hst''.
    rewrite choice_count_set in He.
    destruct (Z.lt_total e d) as [Hlt|[->|Hgt]].
    + exfalso. specialize (Hmin (d - e)%Z ltac:(lia)).
      replace (pointed_at st + d - e)%Z with (pointed_at st + (d - e))%Z in Hst''
        by ring.
      rewrite <- Hst'' in Hmin. congruence.
    + rewrite Hst''. replace (pointed_at st + d - d)%Z with (pointed_at st) by ring.
      rewrite Z.mod_small by lia. apply set_pointed_at_same.
    + exfalso. specialize (Hmin' d ltac:(lia)).
      rewrite pointed_at_set, choice_count_set, set_pointed_at_twice,
        Zminus_mod_idemp_l in Hmin'.
      replace (pointed_at st + d - d)%Z with (pointed_at st) in Hmin' by ring.
      rewrite Z.mod_small, set_pointed_at_same in Hmin' by lia. congruence.
  - destruct (move_cursor_up_lands_on_selectable fuel st
                (valid_existsb_selectable st Hv) Hf) as [st' [Eu Hv']].
    exists st'. split; [exact Eu|].
    destruct (move_cursor_up_nearest_l _ _ _ Eu) as (d & Hd & Hst' & _ & Hmin).
    assert (Hf' : (List.length (choices st') <= fuel)%nat) by (rewrite Hst'; exact Hf).
    destruct (move_cursor_down_lands_on_selectable fuel st'
                (valid_existsb_selectable st' Hv') Hf') as [st'' [Ed Hv'']].
    destruct (move_cursor_down_nearest_l _ _ _ Ed) as (e & He & Hst'' & _ & Hmin').
    rewrite Ed. f_equal. subst st'.
    rewrite pointed_at_set, choice_count_set, set_pointed_at_twice,
      Zplus_mod_idemp_l in Hst''.
    rewrite choice_count_set in He.
    destruct (Z.lt_total e d) as [Hlt|[->|Hgt]].
    + exfalso. specialize (Hmin (d - e)%Z ltac:(lia)).
      replace (pointed_at st - d + e)%Z with (pointed_at st - (d - e))%Z in Hst''
        by ring.
      rewrite <- Hst'' in Hmin. congruence.
    + rewrite Hst''. replace (pointed_at st - d + d)%Z with (pointed_at st) by ring.
      rewrite Z.mod_small by lia. apply set_pointed_at_same.
    + exfalso. specialize (Hmin' d ltac:(lia)).
      rewrite pointed_at_set, choice_count_set, set_pointed_at_twice,
        Zplus_mod_idemp_l in Hmin'.
      replace (pointed_at st - d + d)%Z with (pointed_at st) in Hmin' by ring.
      rewrite Z.mod_small, set_pointed_at_same in Hmin' by lia. congruence.
Qed.

(** *** Validation feedback and session flags *)

Lemma error_message_revalidated (validate : list V -> pyval) (s0 : state V) :
  submission_attempted s0 = true ->
  (error_message (fst (perform_validation validate s0 (get_selected_values s0))) = None <->
   validate (get_selected_values
               (fst (perform_validation validate s0 (get_selected_values s0))))
   = PyBool true).
Proof.
  intros Hs.
  change (get_selected_values
            (fst (perform_validation validate s0 (get_selected_values s0))))
    with (get_selected_values s0).
  unfold perform_validation. simpl. rewrite Hs.
  destruct (validate (get_selected_values s0)) as [[|]| | |]; simpl; split; congruence.
Qed.

(** The edits end with [perform_validation] on the edited state. *)
Lemma edit_shape (validate : list V -> pyval) (fuel : nat) (st st' : state V)
    (k : key) :
  In k [KSpace; KI; KA] ->
  handle_key validate fuel st k = Active st' ->
  exists s0, st' = fst (perform_validation validate s0 (get_selected_values s0)) /\
             submission_attempted s0 = submission_attempted st.
Proof.
  intros Hk Hh. simpl in Hk.
  destruct Hk as [<-|[<-|[<-|[]]]]; cbn [handle_key] in Hh.
  - unfold of_option in Hh. destruct (toggle validate st) as [s|] eqn:Et; [|discriminate].
    injection Hh as <-. unfold toggle in Et.
    destruct (get_pointed_at st) as [[l|c]|]; try discriminate.
    injection Et as <-.
    exists (set_selected_options st
              (if mem (c_value c) (selected_options st)
               then remove_first (c_value c) (selected_options st)
               else selected_options st ++ [c_value c])).
    split; reflexivity.
  - injection Hh as <-.
    exists (set_selected_options st
              (inverted_selection (choices st) (selected_options st))).
    split; reflexivity.
  - injection Hh as <-. unfold all. destruct (all_loop _ _ _) as [sel b].
    exists (set_selected_options st (if b then [] else sel)).
    split; reflexivity.
Qed.

(** X4: once a submit has been attempted, each edit (space, "i", "a")
    re-runs the validator on the new selection: the error message is
    cleared exactly when the validator returns [True] on it. *)
Theorem edits_revalidate_after_submit (validate : list V -> pyval) (fuel : nat)
    (st st' : state V) (k : key) :
  submission_attempted st = true ->
  In k [KSpace; KI; KA] ->
  handle_key validate fuel st k = Active st' ->
  submission_attempted st' = true /\
  (error_message st' = None <-> validate (get_selected_values st') = PyBool true).
Proof.
  intros Hs Hk Hh.
  destruct (edit_shape validate fuel st st' k Hk Hh) as (s0 & -> & Hs0).
  rewrite Hs in Hs0. split.
  - exact Hs0.
  - apply error_message_revalidated. exact Hs0.
Qed.

Lemma handle_key_flags (validate : list V -> pyval) (fuel : nat) (st st' : state V)
    (k : key) :
  handle_key validate fuel st k = Active st' ->
  is_answered st' = is_answered st /\
  (submission_attempted st = true -> submission_attempted st' = true).
Proof.
  intros Hh. destruct k; cbn [handle_key] in Hh; try discriminate.
  - unfold of_option, toggle in Hh.
    destruct (get_pointed_at st) as [[l|c]|]; try discriminate.
    injection Hh as <-. cbv zeta. split; [reflexivity | tauto].
  - injection Hh as <-. split; [reflexivity | tauto].
  - injection Hh as <-. unfold all. destruct (all_loop _ _ _).
    split; [reflexivity | tauto].
  - unfold of_option in Hh. destruct (move_cursor_down fuel st) eqn:E; [|discriminate].
    injection Hh as <-. rewrite (skip_next_frame _ _ _ E). split; [reflexivity | tauto].
  - unfold of_option in Hh. destruct (move_cursor_down fuel st) eqn:E; [|discriminate].
    injection Hh as <-. rewrite (skip_next_frame _ _ _ E). split; [reflexivity | tauto].
  - unfold of_option in Hh. destruct (move_cursor_up fuel st) eqn:E; [|discriminate].
    injection Hh as <-. rewrite (skip_previous_frame _ _ _ E).
    split; [reflexivity | tauto].
  - unfold of_option in Hh. destruct (move_cursor_up fuel st) eqn:E; [|discriminate].
    injection Hh as <-. rewrite (skip_previous_frame _ _ _ E).
    split; [reflexivity | tauto].
  - unfold set_answer in Hh.
    destruct (perform_validation validate _ _) as [st2 ok] eqn:Epv.
    destruct ok; [discriminate|]. injection Hh as <-.
    assert (Hst2 : st2 = fst (perform_validation validate
                              (set_submission_attempted st true) (get_selected_values st)))
      by (rewrite Epv; reflexivity).
    rewrite Hst2. split; reflexivity.
  - injection Hh as <-. split; [reflexivity | tauto].
Qed.

(** X5: while the prompt stays active, no key sets [is_answered], and
    once a submit was attempted the flag [submission_attempted] is never
    reset. *)
Theorem run_keys_flags (validate : list V -> pyval) (fuel : nat) (ks : list key) :
  forall (st st' : state V),
  run_keys validate fuel st ks = Active st' ->
  is_answered st' = is_answered st /\
  (submission_attempted st = true -> submission_attempted st' = true).
Proof.
  induction ks as [|k ks IH]; intros st st' Hr; simpl in Hr.
  - injection Hr as <-. split; [reflexivity | tauto].
  - destruct (handle_key validate fuel st k) as [s| | |] eqn:Eh; try discriminate.
    destruct (handle_key_flags validate fuel st s k Eh) as [Ha Hs].
    destruct (IH s st' Hr) as [Ha' Hs']. split; [congruence | tauto].
Qed.

Lemma set_answer_answered (validate : list V -> pyval) (st st' : state V) (r : list V) :
  set_answer validate st = Answered st' r ->
  validate r = PyBool true /\ is_answered st' = true /\ submission_attempted st' = true.
Proof.
  unfold set_answer, perform_validation. simpl.
  destruct (validate (get_selected_values st)) as [[|]| | |] eqn:E; simpl;
    intros Hs; try discriminate.
  injection Hs as <- <-. split; [exact E | split; reflexivity].
Qed.

(** X6: a run of keys ends with an answer only through Enter, and only
    with a result the validator returned [True] on. *)
Theorem run_keys_answered (validate : list V -> pyval) (fuel : nat) (ks : list key) :
  forall (st st' : state V) (r : list V),
  run_keys validate fuel st ks = Answered st' r ->
  In KControlM ks /\ validate r = PyBool true /\
  is_answered st' = true /\ submission_attempted st' = true.
Proof.
  induction ks as [|k ks IH]; intros st st' r Hr; simpl in Hr; [discriminate|].
  destruct (handle_key validate fuel st k) as [s|s r'| |] eqn:Eh; try discriminate.
  - destruct (IH s st' r Hr) as (Hin & ?). split; [right; exact Hin | assumption].
  - injection Hr as -> ->.
    destruct k; cbn [handle_key] in Eh; try discriminate;
      try (unfold of_option in Eh;
           match type of Eh with
           | match ?o with _ => _ end = _ => destruct o; discriminate
           end).
    split; [left; reflexivity|]. exact (set_answer_answered _ _ _ _ Eh).
Qed.

Lemma remove_first_In_ne (v w : V) (l : list V) :
  w <> v -> In w l -> In w (remove_first v l).
Proof.
  induction l as [|y l IH]; simpl; intros Hne Hin; [exact Hin|].
  destruct (py_eq_dec v y) as [->|Hvy].
  - destruct Hin as [->|Hin]; [congruence | exact Hin].
  - simpl. destruct Hin as [->|Hin]; [left; reflexivity | right; exact (IH Hne Hin)].
Qed.

Lemma choices_pv (validate : list V -> pyval) (st : state V) (sv : list V) :
  choices (fst (perform_validation validate st sv)) = choices st.
Proof. reflexivity. Qed.

Lemma pointed_at_pv (validate : list V -> pyval) (st : state V) (sv : list V) :
  pointed_at (fst (perform_validation validate st sv)) = pointed_at st.
Proof. reflexivity. Qed.

(** X8: space on the Choice under the cursor flips the membership of its
    value and of no other value (for a selection without duplicates);
    the entries and the cursor are left alone. *)
Theorem toggle_flips_pointed (validate : list V -> pyval) (st st' : state V) :
  NoDup (selected_options st) ->
  toggle validate st = Some st' ->
  exists c, get_pointed_at st = Some (Ch c) /\
    choices st' = choices st /\ pointed_at st' = pointed_at st /\
    (In (c_value c) (selected_options st') <-> ~ In (c_value c) (selected_options st)) /\
    (forall w, w <> c_value c ->
       In w (selected_options st') <-> In w (selected_options st)).
Proof.
  intros Hnd Ht. unfold toggle in Ht.
  destruct (get_pointed_at st) as [[l|c]|] eqn:Ep; try discriminate.
  injection Ht as <-. exists c. split; [reflexivity|].
  cbn [fst perform_validation choices pointed_at selected_options
       set_selected_options set_error_message].
  split; [reflexivity|]. split; [reflexivity|].
  destruct (mem (c_value c) (selected_options st)) eqn:Em.
  - apply mem_In in Em. split.
    + split; [intros Hin; exfalso; exact (remove_first_NoDup_notin _ _ Hnd Hin)
             | intros Hn; contradiction].
    + intros w Hw. split; [apply remove_first_In | apply remove_first_In_ne; exact Hw].
  - apply mem_false_In in Em. split.
    + split; [intros _; exact Em | intros _; apply in_or_app; right; left; reflexivity].
    + intros w Hw. rewrite in_app_iff. simpl.
      split; [intros [Hin|[Heq|[]]]; [exact Hin | congruence] | intros Hin; left; exact Hin].
Qed.

(** X9: "i" selects exactly the enabled Choices that were not selected,
    and drops every selected value that is not an enabled Choice; with
    distinct choice values the new selection has no duplicates.  The
    entries and the cursor are left alone. *)
Theorem invert_complements (validate : list V -> pyval) (st : state V) :
  choices (invert validate st) = choices st /\
  pointed_at (invert validate st) = pointed_at st /\
  (forall v, In v (selected_options (invert validate st)) <->
             In v (selectable_values (choices st)) /\ ~ In v (selected_options st)) /\
  (NoDup (selectable_values (choices st)) -> NoDup (selected_options (invert validate st))).
Proof.
  unfold invert. cbv zeta. rewrite choices_pv, pointed_at_pv, selected_options_pv.
  cbn [choices pointed_at selected_options set_selected_options].
  split; [reflexivity|]. split; [reflexivity|]. split.
  - intros v. apply inverted_selection_In.
  - intros Hsv. rewrite inverted_selection_filter. apply NoDup_filter, Hsv.
Qed.

Lemma filter_negb_mem_nil (l : list V) :
  filter (fun v => negb (mem v [])) l = l.
Proof.
  induction l as [|x l IH]; [reflexivity|].
  cbn [filter mem negb]. f_equal. exact IH.
Qed.

Lemma forallb_mem_app_filter (sel l : list V) :
  forallb (fun v => mem v (sel ++ filter (fun v => negb (mem v sel)) l)) l = true.
Proof.
  apply forallb_forall. intros v Hv. apply mem_In. apply in_or_app.
  destruct (mem v sel) eqn:Em.
  - left. apply mem_In, Em.
  - right. apply filter_In. rewrite Em. split; [exact Hv | reflexivity].
Qed.

Lemma all_selected_options (validate : list V -> pyval) (st : state V) :
  NoDup (selectable_values (choices st)) ->
  choices (all validate st) = choices st /\
  selected_options (all validate st) =
    (if forallb (fun v => mem v (selected_options st)) (selectable_values (choices st))
     then []
     else selected_options st ++
          filter (fun v => negb (mem v (selected_options st)))
                 (selectable_values (choices st))).
Proof.
  intros Hsv. unfold all. rewrite (all_loop_eq _ _ true Hsv).
  cbv zeta. rewrite choices_pv, selected_options_pv. split; reflexivity.
Qed.

(** X10: pressing "a" twice selects exactly the enabled Choices, in list
    order, when all of them were selected before, and clears the selection
    otherwise (for distinct choice values). *)
Theorem all_twice (validate : list V -> pyval) (st : state V) :
  NoDup (selectable_values (choices st)) ->
  selected_options (all validate (all validate st)) =
    if forallb (fun v => mem v (selected_options st)) (selectable_values (choices st))
    then selectable_values (choices st) else [].
Proof.
  intros Hsv.
  destruct (all_selected_options validate st Hsv) as [Hc Hs1].
  assert (Hsv1 : NoDup (selectable_values (choices (all validate st))))
    by (rewrite Hc; exact Hsv).
  destruct (all_selected_options validate (all validate st) Hsv1) as [_ Hs2].
  rewrite Hs2, Hs1, Hc.
  destruct (forallb (fun v => mem v (selected_options st)) (selectable_values (choices st))).
  - rewrite filter_negb_mem_nil. simpl app.
    destruct (selectable_values (choices st)) as [|x l]; reflexivity.
  - rewrite forallb_mem_app_filter. reflexivity.
Qed.

Lemma handle_key_valid (validate : list V -> pyval) (fuel : nat) (st st' : state V)
    (k : key) :
  is_selection_valid st = true ->
  handle_key validate fuel st k = Active st' ->
  choices st' = choices st /\ is_selection_valid st' = true.
Proof.
  intros Hv Hh.
  assert (Hedit : forall s : state V, choices s = choices st ->
                  pointed_at s = pointed_at st ->
                  choices s = choices st /\ is_selection_valid s = true)
    by (intros s Hc Hp; split; [exact Hc | rewrite (is_selection_valid_ext st s Hc Hp); exact Hv]).
  destruct k; cbn [handle_key] in Hh; try discriminate.
  - destruct (toggle validate st) as [s|] eqn:Et; [|discriminate].
    injection Hh as <-. unfold toggle in Et.
    destruct (get_pointed_at st) as [[l|c]|]; try discriminate.
    injection Et as <-. apply Hedit; reflexivity.
  - injection Hh as <-. apply Hedit; reflexivity.
  - injection Hh as <-. unfold all. destruct (all_loop _ _ _).
    apply Hedit; reflexivity.
  - unfold of_option in Hh. destruct (move_cursor_down fuel st) eqn:E; [|discriminate].
    injection Hh as <-. split; [rewrite (skip_next_frame _ _ _ E); reflexivity
                               | exact (skip_next_valid _ _ _ E)].
  - unfold of_option in Hh. destruct (move_cursor_down fuel st) eqn:E; [|discriminate].
    injection Hh as <-. split; [rewrite (skip_next_frame _ _ _ E); reflexivity
                               | exact (skip_next_valid _ _ _ E)].
  - unfold of_option in Hh. destruct (move_cursor_up fuel st) eqn:E; [|discriminate].
    injection Hh as <-. split; [rewrite (skip_previous_frame _ _ _ E); reflexivity
                               | exact (skip_previous_valid _ _ _ E)].
  - unfold of_option in Hh. destruct (move_cursor_up fuel st) eqn:E; [|discriminate].
    injection Hh as <-. split; [rewrite (skip_previous_frame _ _ _ E); reflexivity
                               | exact (skip_previous_valid _ _ _ E)].
  - unfold set_answer in Hh.
    destruct (perform_validation validate _ _) as [st2 ok] eqn:Epv.
    destruct ok; [discriminate|]. injection Hh as <-.
    assert (Hst2 : st2 = fst (perform_validation validate
                              (set_submission_attempted st true) (get_selected_values st)))
      by (rewrite Epv; reflexivity).
    rewrite Hst2. apply Hedit; reflexivity.
  - injection Hh as <-. apply Hedit; reflexivity.
Qed.

Lemma handle_key_not_stuck (validate : list V -> pyval) (fuel : nat) (st : state V)
    (k : key) :
  is_selection_valid st = true ->
  (List.length (choices st) <= fuel)%nat ->
  handle_key validate fuel st k <> Stuck.
Proof.
  intros Hv Hf. pose proof (valid_existsb_selectable st Hv) as Hex.
  destruct k; cbn [handle_key]; try discriminate.
  - unfold of_option, toggle. unfold is_selection_valid in Hv.
    destruct (get_pointed_at st) as [[l|c]|]; [discriminate | discriminate | discriminate].
  - destruct (move_cursor_down_lands_on_selectable fuel st Hex Hf) as [s [E _]].
    rewrite E. discriminate.
  - destruct (move_cursor_down_lands_on_selectable fuel st Hex Hf) as [s [E _]].
    rewrite E. discriminate.
  - destruct (move_cursor_up_lands_on_selectable fuel st Hex Hf) as [s [E _]].
    rewrite E. discriminate.
  - destruct (move_cursor_up_lands_on_selectable fuel st Hex Hf) as [s [E _]].
    rewrite E. discriminate.
  - unfold set_answer. destruct (perform_validation _ _ _) as [s [|]]; discriminate.
Qed.

(** X11: from a cursor on an enabled Choice, with at least as many loop
    iterations allowed as there are entries, no sequence of keys gets
    stuck: space always finds a Choice under the cursor and every cursor
    loop stops. *)
Theorem run_keys_never_stuck (validate : list V -> pyval) (fuel : nat) (ks : list key) :
  forall (st : state V),
  is_selection_valid st = true ->
  (List.length (choices st) <= fuel)%nat ->
  run_keys validate fuel st ks <> Stuck.
Proof.
  induction ks as [|k ks IH]; intros st Hv Hf; simpl; [discriminate|].
  destruct (handle_key validate fuel st k) as [s| | |] eqn:Eh.
  - destruct (handle_key_valid validate fuel st s k Hv Eh) as [Hc Hv'].
    apply IH; [exact Hv' | rewrite Hc; exact Hf].
  - discriminate.
  - discriminate.
  - exfalso. exact (handle_key_not_stuck validate fuel st k Hv Hf Eh).
Qed.

End Extras.

(** ** Concrete runs of the theorems *)

Lemma move_cursor_lands_on_selectable_witness :
  existsb selectable (choices (set_pointed_at ex_state 1)) = true /\
  (List.length (choices (set_pointed_at ex_state 1)) <= 4)%nat /\
  ((exists st', move_cursor_down 4 (set_pointed_at ex_state 1) = Some st' /\
                is_selection_valid st' = true) /\
   (exists st', move_cursor_up 4 (set_pointed_at ex_state 1) = Some st' /\
                is_selection_valid st' = true)).
Proof.
  split; [reflexivity|]. split; [simpl; lia|].
  apply (move_cursor_lands_on_selectable 4 (set_pointed_at ex_state 1));
    [reflexivity | simpl; lia].
Defined.

Lemma all_toggles_all_or_none_witness :
  NoDup (selectable_values (choices ab_state)) /\
  ((selected_options (all at_least_one ab_state) = [] <->
     (forall v, In v (selectable_values (choices ab_state)) ->
                In v (selected_options ab_state))) /\
   (~ (forall v, In v (selectable_values (choices ab_state)) ->
                 In v (selected_options ab_state)) ->
      selected_options (all at_least_one ab_state) =
        (selected_options ab_state ++
         filter (fun v => negb (mem v (selected_options ab_state)))
                (selectable_values (choices ab_state)))%list)).
Proof.
  assert (Hnd : NoDup (selectable_values (choices ab_state))).
  { simpl. repeat (apply NoDup_cons;
      [simpl; intros Hin; intuition discriminate|]).
    apply NoDup_nil. }
  split; [exact Hnd|]. apply (all_toggles_all_or_none at_least_one ab_state Hnd).
Defined.

Lemma toggle_twice_witness :
  get_pointed_at ab_state = Some (plain "a") /\
  NoDup (selected_options ab_state) /\
  exists st1 st2,
    toggle at_least_one ab_state = Some st1 /\ toggle at_least_one st1 = Some st2 /\
    selected_options st2 =
      (if mem "a" (selected_options ab_state)
       then (remove_first "a" (selected_options ab_state) ++ ["a"])%list
       else selected_options ab_state).
Proof.
  assert (Hnd : NoDup (selected_options ab_state)).
  { simpl. repeat (apply NoDup_cons;
      [simpl; intros Hin; intuition discriminate|]).
    apply NoDup_nil. }
  split; [reflexivity|]. split; [exact Hnd|].
  apply (toggle_twice at_least_one ab_state (mkChoice (TStr "a") "a" false None));
    [reflexivity | exact Hnd].
Defined.

Lemma error_stored_only_after_submit_witness :
  submission_attempted ex_state = false /\ error_message ex_state = None /\
  ~ In KControlM [KSpace; KSpace; KDown] /\
  run_keys at_least_one 4 ex_state [KSpace; KSpace; KDown]
    = Active (set_pointed_at ex_state 1) /\
  error_message (set_pointed_at ex_state 1) = None /\
  submission_attempted (set_pointed_at ex_state 1) = false.
Proof.
  assert (Hk : ~ In KControlM [KSpace; KSpace; KDown])
    by (simpl; intros Hin; intuition discriminate).
  assert (Hr : run_keys at_least_one 4 ex_state [KSpace; KSpace; KDown]
               = Active (set_pointed_at ex_state 1)) by (vm_compute; reflexivity).
  do 4 (split; [first [reflexivity | exact Hk | exact Hr]|]).
  apply (error_stored_only_after_submit at_least_one 4 ex_state
           (set_pointed_at ex_state 1) [KSpace; KSpace; KDown]);
    [reflexivity | reflexivity | exact Hk | exact Hr].
Defined.

Lemma set_answer_outcome_witness :
  (forall v, In v (selected_options (set_selected_options ex_state ["b"])) ->
             find_choice v (choices (set_selected_options ex_state ["b"])) <> None) /\
  match set_answer at_least_one (set_selected_options ex_state ["b"]) with
  | Answered st' r => r = ["b"] /\ is_answered st' = true
  | _ => False
  end.
Proof.
  assert (Hall : forall v, In v (selected_options (set_selected_options ex_state ["b"])) ->
             find_choice v (choices (set_selected_options ex_state ["b"])) <> None).
  { simpl. intros v [<-|[]]. simpl. discriminate. }
  split; [exact Hall|].
  pose proof (set_answer_outcome at_least_one (set_selected_options ex_state ["b"]) Hall)
    as Ho.
  destruct (set_answer at_least_one (set_selected_options ex_state ["b"]))
    as [| st' r | |]; try contradiction.
  - destruct Ho as [Hv _]. exfalso. apply Hv. reflexivity.
  - destruct Ho as (_ & Hr & _ & Ha & _). split; assumption.
Defined.

Lemma answered_summary_witness :
  is_answered styled_state = true /\
  get_prompt_tokens "?" "Pick" styled_state =
    Some (prompt_head "?" "Pick" ++ [("class:answer", "foo")])%list.
Proof.
  split; [reflexivity|].
  destruct (answered_summary "?" "Pick" styled_state eq_refl) as (_ & Hone & _).
  apply (proj2 (Hone "a" styled_choice eq_refl eq_refl) [("class:bold", "foo")]).
  reflexivity.
Defined.

Lemma cursor_keys_change_only_cursor_witness :
  In KDown [KDown; KJ; KUp; KK] /\
  handle_key at_least_one 4 ex_state KDown = Active (set_pointed_at ex_state 1) /\
  selected_options (set_pointed_at ex_state 1) = selected_options ex_state.
Proof.
  assert (Hh : handle_key at_least_one 4 ex_state KDown
               = Active (set_pointed_at ex_state 1)) by (vm_compute; reflexivity).
  split; [left; reflexivity|]. split; [exact Hh|].
  destruct (cursor_keys_change_only_cursor at_least_one 4 ex_state
              (set_pointed_at ex_state 1) KDown (or_introl eq_refl) Hh)
    as (_ & Hs & _).
  exact Hs.
Defined.

Lemma invert_twice_same_set_witness :
  (forall v, In v (selected_options ab_state) ->
             In v (selectable_values (choices ab_state))) /\
  (forall v, In v (selected_options (invert at_least_one (invert at_least_one ab_state)))
             <-> In v (selected_options ab_state)).
Proof.
  assert (Hsub : forall v, In v (selected_options ab_state) ->
                           In v (selectable_values (choices ab_state))).
  { simpl. intros v [<-|[<-|[]]]; simpl; auto. }
  split; [exact Hsub|]. apply (invert_twice_same_set at_least_one ab_state Hsub).
Defined.

Lemma run_keys_invariant_witness :
  NoDup (selectable_values (choices ab_state)) /\
  is_selection_valid ab_state = true /\
  (forall v, In v (selected_options ab_state) ->
             In v (selectable_values (choices ab_state))) /\
  NoDup (selected_options ab_state) /\
  run_keys at_least_one 4 ab_state [KSpace; KDown; KI]
    = Active (mkState ex_choices 1 ["a"; "c"] None false false) /\
  (choices (mkState ex_choices 1 ["a"; "c"] None false false) = choices ab_state /\
   is_selection_valid (mkState ex_choices 1 ["a"; "c"] None false false) = true /\
   (forall v, In v ["a"; "c"] -> In v (selectable_values ex_choices)) /\
   NoDup ["a"; "c"]).
Proof.
  assert (Hsv : NoDup (selectable_values (choices ab_state))).
  { simpl. repeat (apply NoDup_cons; [simpl; intros Hin; intuition discriminate|]).
    apply NoDup_nil. }
  assert (Hsub : forall v, In v (selected_options ab_state) ->
                           In v (selectable_values (choices ab_state))).
  { simpl. intros v [<-|[<-|[]]]; simpl; auto. }
  assert (Hnd : NoDup (selected_options ab_state)).
  { simpl. repeat (apply NoDup_cons; [simpl; intros Hin; intuition discriminate|]).
    apply NoDup_nil. }
  assert (Hr : run_keys at_least_one 4 ab_state [KSpace; KDown; KI]
               = Active (mkState ex_choices 1 ["a"; "c"] None false false))
    by (vm_compute; reflexivity).
  split; [exact Hsv|]. split; [reflexivity|]. split; [exact Hsub|].
  split; [exact Hnd|]. split; [exact Hr|].
  exact (run_keys_invariant at_least_one 4 [KSpace; KDown; KI] ab_state _
           Hsv eq_refl Hsub Hnd Hr).
Defined.

Lemma cursor_move_round_trip_witness :
  is_selection_valid ex_state = true /\
  (List.length (choices ex_state) <= 4)%nat /\
  ((exists st', move_cursor_down 4 ex_state = Some st' /\
                move_cursor_up 4 st' = Some ex_state) /\
   (exists st', move_cursor_up 4 ex_state = Some st' /\
                move_cursor_down 4 st' = Some ex_state)).
Proof.
  split; [reflexivity|]. split; [simpl; lia|].
  apply (cursor_move_round_trip 4 ex_state); [reflexivity | simpl; lia].
Defined.

Lemma edits_revalidate_after_submit_witness :
  submission_attempted (mkState ex_choices 0 ["a"] None true false) = true /\
  In KSpace [KSpace; KI; KA] /\
  handle_key at_least_one 4 (mkState ex_choices 0 ["a"] None true false) KSpace
    = Active (mkState ex_choices 0 []
                (Some [("class:validation-toolbar", "pick one")]) true false) /\
  (submission_attempted (mkState ex_choices 0 []
                (Some [("class:validation-toolbar", "pick one")]) true false) = true /\
   (error_message (mkState ex_choices 0 []
                (Some [("class:validation-toolbar", "pick one")]) true false) = None <->
    at_least_one (get_selected_values (mkState ex_choices 0 []
                (Some [("class:validation-toolbar", "pick one")]) true false))
      = PyBool true)).
Proof.
  assert (Hh : handle_key at_least_one 4 (mkState ex_choices 0 ["a"] None true false) KSpace
    = Active (mkState ex_choices 0 []
                (Some [("class:validation-toolbar", "pick one")]) true false))
    by (vm_compute; reflexivity).
  split; [reflexivity|]. split; [left; reflexivity|]. split; [exact Hh|].
  exact (edits_revalidate_after_submit at_least_one 4
           (mkState ex_choices 0 ["a"] None true false) _ KSpace eq_refl
           (or_introl eq_refl) Hh).
Defined.

Lemma run_keys_flags_witness :
  run_keys at_least_one 4 (mkState ex_choices 0 ["a"] None true false) [KSpace; KDown; KI]
    = Active (mkState ex_choices 1 ["a"; "b"; "c"] None true false) /\
  (is_answered (mkState ex_choices 1 ["a"; "b"; "c"] None true false)
     = is_answered (mkState ex_choices 0 ["a"] None true false) /\
   (submission_attempted (mkState ex_choices 0 ["a"] None true false) = true ->
    submission_attempted (mkState ex_choices 1 ["a"; "b"; "c"] None true false) = true)).
Proof.
  assert (Hr : run_keys at_least_one 4 (mkState ex_choices 0 ["a"] None true false)
                 [KSpace; KDown; KI]
               = Active (mkState ex_choices 1 ["a"; "b"; "c"] None true false))
    by (vm_compute; reflexivity).
  split; [exact Hr|].
  exact (run_keys_flags at_least_one 4 [KSpace; KDown; KI] _ _ Hr).
Defined.

Lemma run_keys_answered_witness :
  run_keys at_least_one 4 ex_state [KSpace; KControlM]
    = Answered (mkState ex_choices 0 ["a"] None true true) ["a"] /\
  (In KControlM [KSpace; KControlM] /\ at_least_one ["a"] = PyBool true /\
   is_answered (mkState ex_choices 0 ["a"] None true true) = true /\
   submission_attempted (mkState ex_choices 0 ["a"] None true true) = true).
Proof.
  assert (Hr : run_keys at_least_one 4 ex_state [KSpace; KControlM]
               = Answered (mkState ex_choices 0 ["a"] None true true) ["a"])
    by (vm_compute; reflexivity).
  split; [exact Hr|].
  exact (run_keys_answered at_least_one 4 [KSpace; KControlM] _ _ _ Hr).
Defined.

Lemma toggle_flips_pointed_witness :
  NoDup (selected_options ab_state) /\
  toggle at_least_one ab_state = Some (mkState ex_choices 0 ["b"] None false false) /\
  exists c, get_pointed_at ab_state = Some (Ch c) /\
    choices (mkState ex_choices 0 ["b"] None false false) = choices ab_state /\
    pointed_at (mkState ex_choices 0 ["b"] None false false) = pointed_at ab_state /\
    (In (c_value c) ["b"] <-> ~ In (c_value c) (selected_options ab_state)) /\
    (forall w, w <> c_value c -> In w ["b"] <-> In w (selected_options ab_state)).
Proof.
  assert (Hnd : NoDup (selected_options ab_state)).
  { simpl. repeat (apply NoDup_cons; [simpl; intros Hin; intuition discriminate|]).
    apply NoDup_nil. }
  assert (Ht : toggle at_least_one ab_state
               = Some (mkState ex_choices 0 ["b"] None false false))
    by (vm_compute; reflexivity).
  split; [exact Hnd|]. split; [exact Ht|].
  exact (toggle_flips_pointed at_least_one ab_state _ Hnd Ht).
Defined.

Lemma all_twice_witness :
  NoDup (selectable_values (choices ab_state)) /\
  selected_options (all at_least_one (all at_least_one ab_state)) =
    (if forallb (fun v => mem v (selected_options ab_state))
                (selectable_values (choices ab_state))
     then selectable_values (choices ab_state) else []).
Proof.
  assert (Hsv : NoDup (selectable_values (choices ab_state))).
  { simpl. repeat (apply NoDup_cons; [simpl; intros Hin; intuition discriminate|]).
    apply NoDup_nil. }
  split; [exact Hsv|]. exact (all_twice at_least_one ab_state Hsv).
Defined.

Lemma run_keys_never_stuck_witness :
  is_selection_valid ex_state = true /\
  (List.length (choices ex_state) <= 4)%nat /\
  run_keys at_least_one 4 ex_state [KSpace; KDown; KDown; KSpace; KI; KUp; KControlM]
    <> Stuck.
Proof.
  split; [reflexivity|]. split; [simpl; lia|].
  apply (run_keys_never_stuck at_least_one 4); [reflexivity | simpl; lia].
Defined.

(** ** Counterexamples *)

(** C3: with ["a"; "b"] selected and the cursor on "a", two toggles give
    ["b"; "a"], not the selection they started from. *)
Lemma toggle_twice_counterexample :
  exists st1 st2,
    toggle at_least_one ab_state = Some st1 /\ toggle at_least_one st1 = Some st2 /\
    selected_options st2 = ["b"; "a"] /\
    selected_options st2 <> selected_options ab_state.
Proof.
  eexists _, _. split; [reflexivity|]. split; [reflexivity|].
  vm_compute. split; [reflexivity | discriminate].
Qed.

(** C4: before any submit attempt a failing validator leaves no error
    message stored. *)
Lemma error_not_stored_counterexample :
  is_True (at_least_one []) = false /\
  error_message (fst (perform_validation at_least_one ex_state [])) = None /\
  error_message (fst (perform_validation at_least_one ex_state []))
    <> Some [("class:validation-toolbar", "pick one")].
Proof. vm_compute. split; [reflexivity | split; [reflexivity | discriminate]]. Qed.

(** C7: a single selected choice whose title is a list of styled tokens
    is summarised as "foo", not as "[foo]". *)
Lemma summary_styled_title_counterexample :
  get_prompt_tokens "?" "Pick" styled_state =
    Some (prompt_head "?" "Pick" ++ [("class:answer", "foo")])%list /\
  get_prompt_tokens "?" "Pick" styled_state <>
    Some (prompt_head "?" "Pick" ++ [("class:answer", "[foo]")])%list.
Proof. vm_compute. split; [reflexivity | discriminate]. Qed.
